(** * OutlineIQ: the PDF outline extractor of [utils.py]

    A shallow embedding of [extract_outline], [_normalize_text] and
    [_make_image_preview], followed by the properties of the extraction
    engine: heading classification, text normalisation, deduplication,
    image pages, previews and error containment.

    Conventions of the embedding:
    - a Python [str] is a list of Unicode code points ([pystr]);
    - a Python [float] is an extended rational ([pyfloat]): the IEEE special
      values nan, -inf and +inf are kept because the comparisons of the
      classifier depend on them, a finite double is the rational it denotes;
    - a Python [int] is a [Z];
    - an exception raised by a library call is an explicit error outcome of
      that call ([outcome]); each [try]/[except] of the source is a [match]
      on it, and outside a [try] the exception leaves the function;
    - PyMuPDF's [fitz.open], Pillow and base64 are an interface ([Runtime])
      the extractor is parameterised over; an opened document is the data
      its methods return;
    - the debug log records (a [NullHandler] is installed) are not modelled. *)

From Stdlib Require Import QArith Qround Lqa.
From stdpp Require Import base option list gmap sets sorting.
From Stdlib Require Import String Ascii.

#[local] Set Warnings "-clear-no-such-hyp".

Local Open Scope Z_scope.
Local Open Scope list_scope.

(** ** Python strings *)

Abbreviation pystr := (list N).

(** A literal of the model, from an ASCII Rocq string. *)
Definition py (s : string) : pystr :=
  List.map N_of_ascii (list_ascii_of_string s).

(** [Py_UNICODE_ISSPACE]: the characters [str.split()] and [str.strip()]
    treat as whitespace. *)
Definition is_space (c : N) : bool :=
  ((9 <=? c) && (c <=? 13) || (28 <=? c) && (c <=? 32)
   || (c =? 133) || (c =? 160) || (c =? 5760)
   || (8192 <=? c) && (c <=? 8202)
   || (c =? 8232) || (c =? 8233) || (c =? 8239) || (c =? 8287)
   || (c =? 12288))%N.

Definition space : N := 32%N.

Fixpoint lstrip (s : pystr) : pystr :=
  match s with
  | [] => []
  | c :: s' => if is_space c then lstrip s' else s
  end.

Definition rstrip (s : pystr) : pystr := rev (lstrip (rev s)).

(** [s.strip()] *)
Definition strip (s : pystr) : pystr := rstrip (lstrip s).

(** [s.split()]: the maximal runs of non-whitespace characters, in order.
    [word] is the run being read. *)
Fixpoint split_go (word : pystr) (s : pystr) : list pystr :=
  match s with
  | [] => match word with [] => [] | _ => [word] end
  | c :: s' =>
      if is_space c
      then match word with
           | [] => split_go [] s'
           | _ => word :: split_go [] s'
           end
      else split_go (word ++ [c]) s'
  end.

Definition split (s : pystr) : list pystr := split_go [] s.

(** [sep.join(parts)] *)
Fixpoint join (sep : pystr) (parts : list pystr) : pystr :=
  match parts with
  | [] => []
  | [w] => w
  | w :: ws => w ++ sep ++ join sep ws
  end.

(** [_normalize_text]: [" ".join(s.split()).strip()] *)
Definition _normalize_text (s : pystr) : pystr :=
  strip (join [space] (split s)).

(** *** [str.lower()]

    CPython lowers a string code point by code point with the lowercase
    mapping of the Unicode character database ([_PyUnicode_ToLowerFull]),
    except for the capital sigma, whose image depends on its neighbours in
    the original string ([handle_capital_sigma]). The three tables are those
    of CPython 3.11 (Unicode 14.0.0).

    [lower_table]: an entry [(lo, hi, step, to)] sends the code points
    [lo], [lo + step], ..., [hi] to [to], [to + step], ...; a code point in no
    entry is its own lowercase. U+0130 is the one code point whose lowercase
    has two code points, and is handled apart. *)
Definition lower_table : list (N * N * N * N) :=
  [
    (65, 90, 1, 97); (192, 214, 1, 224); (216, 222, 1, 248); (256, 302, 2, 257);
    (306, 310, 2, 307); (313, 327, 2, 314); (330, 374, 2, 331); (376, 376, 1, 255);
    (377, 381, 2, 378); (385, 385, 1, 595); (386, 388, 2, 387); (390, 390, 1, 596);
    (391, 391, 1, 392); (393, 394, 1, 598); (395, 395, 1, 396); (398, 398, 1, 477);
    (399, 399, 1, 601); (400, 400, 1, 603); (401, 401, 1, 402); (403, 403, 1, 608);
    (404, 404, 1, 611); (406, 406, 1, 617); (407, 407, 1, 616); (408, 408, 1, 409);
    (412, 412, 1, 623); (413, 413, 1, 626); (415, 415, 1, 629); (416, 420, 2, 417);
    (422, 422, 1, 640); (423, 423, 1, 424); (425, 425, 1, 643); (428, 428, 1, 429);
    (430, 430, 1, 648); (431, 431, 1, 432); (433, 434, 1, 650); (435, 437, 2, 436);
    (439, 439, 1, 658); (440, 440, 1, 441); (444, 444, 1, 445); (452, 452, 1, 454);
    (453, 453, 1, 454); (455, 455, 1, 457); (456, 456, 1, 457); (458, 458, 1, 460);
    (459, 475, 2, 460); (478, 494, 2, 479); (497, 497, 1, 499); (498, 500, 2, 499);
    (502, 502, 1, 405); (503, 503, 1, 447); (504, 542, 2, 505); (544, 544, 1, 414);
    (546, 562, 2, 547); (570, 570, 1, 11365); (571, 571, 1, 572); (573, 573, 1, 410);
    (574, 574, 1, 11366); (577, 577, 1, 578); (579, 579, 1, 384); (580, 580, 1, 649);
    (581, 581, 1, 652); (582, 590, 2, 583); (880, 882, 2, 881); (886, 886, 1, 887);
    (895, 895, 1, 1011); (902, 902, 1, 940); (904, 906, 1, 941); (908, 908, 1, 972);
    (910, 911, 1, 973); (913, 929, 1, 945); (931, 939, 1, 963); (975, 975, 1, 983);
    (984, 1006, 2, 985); (1012, 1012, 1, 952); (1015, 1015, 1, 1016); (1017, 1017, 1, 1010);
    (1018, 1018, 1, 1019); (1021, 1023, 1, 891); (1024, 1039, 1, 1104); (1040, 1071, 1, 1072);
    (1120, 1152, 2, 1121); (1162, 1214, 2, 1163); (1216, 1216, 1, 1231); (1217, 1229, 2, 1218);
    (1232, 1326, 2, 1233); (1329, 1366, 1, 1377); (4256, 4293, 1, 11520); (4295, 4295, 1, 11559);
    (4301, 4301, 1, 11565); (5024, 5103, 1, 43888); (5104, 5109, 1, 5112); (7312, 7354, 1, 4304);
    (7357, 7359, 1, 4349); (7680, 7828, 2, 7681); (7838, 7838, 1, 223); (7840, 7934, 2, 7841);
    (7944, 7951, 1, 7936); (7960, 7965, 1, 7952); (7976, 7983, 1, 7968); (7992, 7999, 1, 7984);
    (8008, 8013, 1, 8000); (8025, 8031, 2, 8017); (8040, 8047, 1, 8032); (8072, 8079, 1, 8064);
    (8088, 8095, 1, 8080); (8104, 8111, 1, 8096); (8120, 8121, 1, 8112); (8122, 8123, 1, 8048);
    (8124, 8124, 1, 8115); (8136, 8139, 1, 8050); (8140, 8140, 1, 8131); (8152, 8153, 1, 8144);
    (8154, 8155, 1, 8054); (8168, 8169, 1, 8160); (8170, 8171, 1, 8058); (8172, 8172, 1, 8165);
    (8184, 8185, 1, 8056); (8186, 8187, 1, 8060); (8188, 8188, 1, 8179); (8486, 8486, 1, 969);
    (8490, 8490, 1, 107); (8491, 8491, 1, 229); (8498, 8498, 1, 8526); (8544, 8559, 1, 8560);
    (8579, 8579, 1, 8580); (9398, 9423, 1, 9424); (11264, 11311, 1, 11312); (11360, 11360, 1, 11361);
    (11362, 11362, 1, 619); (11363, 11363, 1, 7549); (11364, 11364, 1, 637); (11367, 11371, 2, 11368);
    (11373, 11373, 1, 593); (11374, 11374, 1, 625); (11375, 11375, 1, 592); (11376, 11376, 1, 594);
    (11378, 11378, 1, 11379); (11381, 11381, 1, 11382); (11390, 11391, 1, 575); (11392, 11490, 2, 11393);
    (11499, 11501, 2, 11500); (11506, 11506, 1, 11507); (42560, 42604, 2, 42561); (42624, 42650, 2, 42625);
    (42786, 42798, 2, 42787); (42802, 42862, 2, 42803); (42873, 42875, 2, 42874); (42877, 42877, 1, 7545);
    (42878, 42886, 2, 42879); (42891, 42891, 1, 42892); (42893, 42893, 1, 613); (42896, 42898, 2, 42897);
    (42902, 42920, 2, 42903); (42922, 42922, 1, 614); (42923, 42923, 1, 604); (42924, 42924, 1, 609);
    (42925, 42925, 1, 620); (42926, 42926, 1, 618); (42928, 42928, 1, 670); (42929, 42929, 1, 647);
    (42930, 42930, 1, 669); (42931, 42931, 1, 43859); (42932, 42946, 2, 42933); (42948, 42948, 1, 42900);
    (42949, 42949, 1, 642); (42950, 42950, 1, 7566); (42951, 42953, 2, 42952); (42960, 42960, 1, 42961);
    (42966, 42968, 2, 42967); (42997, 42997, 1, 42998); (65313, 65338, 1, 65345); (66560, 66599, 1, 66600);
    (66736, 66771, 1, 66776); (66928, 66964, 2, 66967); (66929, 66937, 2, 66968); (66941, 66953, 2, 66980);
    (66957, 66961, 2, 66996); (66965, 66965, 1, 67004); (68736, 68786, 1, 68800); (71840, 71871, 1, 71872);
    (93760, 93791, 1, 93792); (125184, 125217, 1, 125218)
  ]%N.

(** The code points with the property [Cased] ([_PyUnicode_IsCased]), as
    inclusive ranges. *)
Definition cased_table : list (N * N) :=
  [
    (65, 90); (97, 122); (170, 170); (181, 181); (186, 186); (192, 214);
    (216, 246); (248, 442); (444, 447); (452, 659); (661, 696); (704, 705);
    (736, 740); (837, 837); (880, 883); (886, 887); (890, 893); (895, 895);
    (902, 902); (904, 906); (908, 908); (910, 929); (931, 1013); (1015, 1153);
    (1162, 1327); (1329, 1366); (1376, 1416); (4256, 4293); (4295, 4295); (4301, 4301);
    (4304, 4346); (4349, 4351); (5024, 5109); (5112, 5117); (7296, 7304); (7312, 7354);
    (7357, 7359); (7424, 7615); (7680, 7957); (7960, 7965); (7968, 8005); (8008, 8013);
    (8016, 8023); (8025, 8025); (8027, 8027); (8029, 8029); (8031, 8061); (8064, 8116);
    (8118, 8124); (8126, 8126); (8130, 8132); (8134, 8140); (8144, 8147); (8150, 8155);
    (8160, 8172); (8178, 8180); (8182, 8188); (8305, 8305); (8319, 8319); (8336, 8348);
    (8450, 8450); (8455, 8455); (8458, 8467); (8469, 8469); (8473, 8477); (8484, 8484);
    (8486, 8486); (8488, 8488); (8490, 8493); (8495, 8500); (8505, 8505); (8508, 8511);
    (8517, 8521); (8526, 8526); (8544, 8575); (8579, 8580); (9398, 9449); (11264, 11492);
    (11499, 11502); (11506, 11507); (11520, 11557); (11559, 11559); (11565, 11565); (42560, 42605);
    (42624, 42653); (42786, 42887); (42891, 42894); (42896, 42954); (42960, 42961); (42963, 42963);
    (42965, 42969); (42997, 42998); (43000, 43002); (43824, 43866); (43868, 43880); (43888, 43967);
    (64256, 64262); (64275, 64279); (65313, 65338); (65345, 65370); (66560, 66639); (66736, 66771);
    (66776, 66811); (66928, 66938); (66940, 66954); (66956, 66962); (66964, 66965); (66967, 66977);
    (66979, 66993); (66995, 67001); (67003, 67004); (67456, 67456); (67459, 67461); (67463, 67504);
    (67506, 67514); (68736, 68786); (68800, 68850); (71840, 71903); (93760, 93823); (119808, 119892);
    (119894, 119964); (119966, 119967); (119970, 119970); (119973, 119974); (119977, 119980); (119982, 119993);
    (119995, 119995); (119997, 120003); (120005, 120069); (120071, 120074); (120077, 120084); (120086, 120092);
    (120094, 120121); (120123, 120126); (120128, 120132); (120134, 120134); (120138, 120144); (120146, 120485);
    (120488, 120512); (120514, 120538); (120540, 120570); (120572, 120596); (120598, 120628); (120630, 120654);
    (120656, 120686); (120688, 120712); (120714, 120744); (120746, 120770); (120772, 120779); (122624, 122633);
    (122635, 122654); (125184, 125251); (127280, 127305); (127312, 127337); (127344, 127369)
  ]%N.

(** The code points with the property [Case_Ignorable]
    ([_PyUnicode_IsCaseIgnorable]), as inclusive ranges. *)
Definition case_ignorable_table : list (N * N) :=
  [
    (39, 39); (46, 46); (58, 58); (94, 94); (96, 96); (168, 168);
    (173, 173); (175, 175); (180, 180); (183, 184); (688, 879); (884, 885);
    (890, 890); (900, 901); (903, 903); (1155, 1161); (1369, 1369); (1375, 1375);
    (1425, 1469); (1471, 1471); (1473, 1474); (1476, 1477); (1479, 1479); (1524, 1524);
    (1536, 1541); (1552, 1562); (1564, 1564); (1600, 1600); (1611, 1631); (1648, 1648);
    (1750, 1757); (1759, 1768); (1770, 1773); (1807, 1807); (1809, 1809); (1840, 1866);
    (1958, 1968); (2027, 2037); (2042, 2042); (2045, 2045); (2070, 2093); (2137, 2139);
    (2184, 2184); (2192, 2193); (2200, 2207); (2249, 2306); (2362, 2362); (2364, 2364);
    (2369, 2376); (2381, 2381); (2385, 2391); (2402, 2403); (2417, 2417); (2433, 2433);
    (2492, 2492); (2497, 2500); (2509, 2509); (2530, 2531); (2558, 2558); (2561, 2562);
    (2620, 2620); (2625, 2626); (2631, 2632); (2635, 2637); (2641, 2641); (2672, 2673);
    (2677, 2677); (2689, 2690); (2748, 2748); (2753, 2757); (2759, 2760); (2765, 2765);
    (2786, 2787); (2810, 2815); (2817, 2817); (2876, 2876); (2879, 2879); (2881, 2884);
    (2893, 2893); (2901, 2902); (2914, 2915); (2946, 2946); (3008, 3008); (3021, 3021);
    (3072, 3072); (3076, 3076); (3132, 3132); (3134, 3136); (3142, 3144); (3146, 3149);
    (3157, 3158); (3170, 3171); (3201, 3201); (3260, 3260); (3263, 3263); (3270, 3270);
    (3276, 3277); (3298, 3299); (3328, 3329); (3387, 3388); (3393, 3396); (3405, 3405);
    (3426, 3427); (3457, 3457); (3530, 3530); (3538, 3540); (3542, 3542); (3633, 3633);
    (3636, 3642); (3654, 3662); (3761, 3761); (3764, 3772); (3782, 3782); (3784, 3789);
    (3864, 3865); (3893, 3893); (3895, 3895); (3897, 3897); (3953, 3966); (3968, 3972);
    (3974, 3975); (3981, 3991); (3993, 4028); (4038, 4038); (4141, 4144); (4146, 4151);
    (4153, 4154); (4157, 4158); (4184, 4185); (4190, 4192); (4209, 4212); (4226, 4226);
    (4229, 4230); (4237, 4237); (4253, 4253); (4348, 4348); (4957, 4959); (5906, 5908);
    (5938, 5939); (5970, 5971); (6002, 6003); (6068, 6069); (6071, 6077); (6086, 6086);
    (6089, 6099); (6103, 6103); (6109, 6109); (6155, 6159); (6211, 6211); (6277, 6278);
    (6313, 6313); (6432, 6434); (6439, 6440); (6450, 6450); (6457, 6459); (6679, 6680);
    (6683, 6683); (6742, 6742); (6744, 6750); (6752, 6752); (6754, 6754); (6757, 6764);
    (6771, 6780); (6783, 6783); (6823, 6823); (6832, 6862); (6912, 6915); (6964, 6964);
    (6966, 6970); (6972, 6972); (6978, 6978); (7019, 7027); (7040, 7041); (7074, 7077);
    (7080, 7081); (7083, 7085); (7142, 7142); (7144, 7145); (7149, 7149); (7151, 7153);
    (7212, 7219); (7222, 7223); (7288, 7293); (7376, 7378); (7380, 7392); (7394, 7400);
    (7405, 7405); (7412, 7412); (7416, 7417); (7468, 7530); (7544, 7544); (7579, 7679);
    (8125, 8125); (8127, 8129); (8141, 8143); (8157, 8159); (8173, 8175); (8189, 8190);
    (8203, 8207); (8216, 8217); (8228, 8228); (8231, 8231); (8234, 8238); (8288, 8292);
    (8294, 8303); (8305, 8305); (8319, 8319); (8336, 8348); (8400, 8432); (11388, 11389);
    (11503, 11505); (11631, 11631); (11647, 11647); (11744, 11775); (11823, 11823); (12293, 12293);
    (12330, 12333); (12337, 12341); (12347, 12347); (12441, 12446); (12540, 12542); (40981, 40981);
    (42232, 42237); (42508, 42508); (42607, 42610); (42612, 42621); (42623, 42623); (42652, 42655);
    (42736, 42737); (42752, 42785); (42864, 42864); (42888, 42890); (42994, 42996); (43000, 43001);
    (43010, 43010); (43014, 43014); (43019, 43019); (43045, 43046); (43052, 43052); (43204, 43205);
    (43232, 43249); (43263, 43263); (43302, 43309); (43335, 43345); (43392, 43394); (43443, 43443);
    (43446, 43449); (43452, 43453); (43471, 43471); (43493, 43494); (43561, 43566); (43569, 43570);
    (43573, 43574); (43587, 43587); (43596, 43596); (43632, 43632); (43644, 43644); (43696, 43696);
    (43698, 43700); (43703, 43704); (43710, 43711); (43713, 43713); (43741, 43741); (43756, 43757);
    (43763, 43764); (43766, 43766); (43867, 43871); (43881, 43883); (44005, 44005); (44008, 44008);
    (44013, 44013); (64286, 64286); (64434, 64450); (65024, 65039); (65043, 65043); (65056, 65071);
    (65106, 65106); (65109, 65109); (65279, 65279); (65287, 65287); (65294, 65294); (65306, 65306);
    (65342, 65342); (65344, 65344); (65392, 65392); (65438, 65439); (65507, 65507); (65529, 65531);
    (66045, 66045); (66272, 66272); (66422, 66426); (67456, 67461); (67463, 67504); (67506, 67514);
    (68097, 68099); (68101, 68102); (68108, 68111); (68152, 68154); (68159, 68159); (68325, 68326);
    (68900, 68903); (69291, 69292); (69446, 69456); (69506, 69509); (69633, 69633); (69688, 69702);
    (69744, 69744); (69747, 69748); (69759, 69761); (69811, 69814); (69817, 69818); (69821, 69821);
    (69826, 69826); (69837, 69837); (69888, 69890); (69927, 69931); (69933, 69940); (70003, 70003);
    (70016, 70017); (70070, 70078); (70089, 70092); (70095, 70095); (70191, 70193); (70196, 70196);
    (70198, 70199); (70206, 70206); (70367, 70367); (70371, 70378); (70400, 70401); (70459, 70460);
    (70464, 70464); (70502, 70508); (70512, 70516); (70712, 70719); (70722, 70724); (70726, 70726);
    (70750, 70750); (70835, 70840); (70842, 70842); (70847, 70848); (70850, 70851); (71090, 71093);
    (71100, 71101); (71103, 71104); (71132, 71133); (71219, 71226); (71229, 71229); (71231, 71232);
    (71339, 71339); (71341, 71341); (71344, 71349); (71351, 71351); (71453, 71455); (71458, 71461);
    (71463, 71467); (71727, 71735); (71737, 71738); (71995, 71996); (71998, 71998); (72003, 72003);
    (72148, 72151); (72154, 72155); (72160, 72160); (72193, 72202); (72243, 72248); (72251, 72254);
    (72263, 72263); (72273, 72278); (72281, 72283); (72330, 72342); (72344, 72345); (72752, 72758);
    (72760, 72765); (72767, 72767); (72850, 72871); (72874, 72880); (72882, 72883); (72885, 72886);
    (73009, 73014); (73018, 73018); (73020, 73021); (73023, 73029); (73031, 73031); (73104, 73105);
    (73109, 73109); (73111, 73111); (73459, 73460); (78896, 78904); (92912, 92916); (92976, 92982);
    (92992, 92995); (94031, 94031); (94095, 94111); (94176, 94177); (94179, 94180); (110576, 110579);
    (110581, 110587); (110589, 110590); (113821, 113822); (113824, 113827); (118528, 118573); (118576, 118598);
    (119143, 119145); (119155, 119170); (119173, 119179); (119210, 119213); (119362, 119364); (121344, 121398);
    (121403, 121452); (121461, 121461); (121476, 121476); (121499, 121503); (121505, 121519); (122880, 122886);
    (122888, 122904); (122907, 122913); (122915, 122916); (122918, 122922); (123184, 123197); (123566, 123566);
    (123628, 123631); (125136, 125142); (125252, 125259); (127995, 127999); (917505, 917505); (917536, 917631);
    (917760, 917999)
  ]%N.

Definition in_ranges (c : N) (table : list (N * N)) : bool :=
  existsb (λ '(lo, hi), (lo <=? c) && (c <=? hi))%N table.

Definition is_cased (c : N) : bool := in_ranges c cased_table.

Definition is_case_ignorable (c : N) : bool := in_ranges c case_ignorable_table.

(** [_PyUnicode_ToLowerFull]: the lowercase of one code point. *)
Definition to_lower_full (c : N) : pystr :=
  if (c =? 304)%N then [105; 775]%N
  else
    match
      List.find
        (λ '(lo, hi, step, _),
           (lo <=? c) && (c <=? hi) && ((c - lo) mod step =? 0))%N
        lower_table
    with
    | Some (lo, _, _, to) => [(to + (c - lo))%N]
    | None => [c]
    end.

(** The first code point of [s] that is not case-ignorable, if any. *)
Fixpoint skip_case_ignorable (s : pystr) : option N :=
  match s with
  | [] => None
  | c :: s' => if is_case_ignorable c then skip_case_ignorable s' else Some c
  end.

(** [handle_capital_sigma]: a capital sigma becomes the final sigma U+03C2
    when, case-ignorable code points set aside, a cased code point precedes
    it and none follows it, and the sigma U+03C3 otherwise. [before] is what
    precedes the sigma in the string, nearest first; [after] is what
    follows it. *)
Definition handle_capital_sigma (before after : pystr) : N :=
  let final_sigma :=
    match skip_case_ignorable before with
    | Some c =>
        is_cased c
        && match skip_case_ignorable after with
           | Some c' => negb (is_cased c')
           | None => true
           end
    | None => false
    end in
  if final_sigma then 962%N else 963%N.

(** [lower_ucs4] at every index of the string; [before] holds the code
    points already read, nearest first. *)
Fixpoint lower_go (before s : pystr) : pystr :=
  match s with
  | [] => []
  | c :: s' =>
      (if (c =? 931)%N then [handle_capital_sigma before s']
       else to_lower_full c)
      ++ lower_go (c :: before) s'
  end.

(** [s.lower()] *)
Definition lower (s : pystr) : pystr := lower_go [] s.

(** ** Python floats *)

Inductive pyfloat : Type :=
  | NaN
  | NegInf
  | PosInf
  | Num (q : Q).

(** [x >= y] *)
Definition float_ge (x y : pyfloat) : bool :=
  match x, y with
  | NaN, _ | _, NaN => false
  | PosInf, _ => true
  | _, NegInf => true
  | Num a, Num b => Qle_bool b a
  | _, _ => false
  end.

(** [x > y] *)
Definition float_gt (x y : pyfloat) : bool :=
  match x, y with
  | NaN, _ | _, NaN => false
  | PosInf, PosInf => false
  | PosInf, _ => true
  | NegInf, NegInf => false
  | _, NegInf => true
  | Num a, Num b => negb (Qle_bool a b)
  | _, _ => false
  end.

(** [x < y] is [y > x]; [x == y] *)
Definition float_lt (x y : pyfloat) : bool := float_gt y x.

Definition float_eq (x y : pyfloat) : bool :=
  match x, y with
  | PosInf, PosInf | NegInf, NegInf => true
  | Num a, Num b => Qeq_bool a b
  | _, _ => false
  end.

Definition is_nan (x : pyfloat) : bool :=
  match x with NaN => true | _ => false end.

(** Rounding of a rational to the nearest integer, ties to even. *)
Definition round_half_even (q : Q) : Z :=
  let f := Qfloor q in
  match Qcompare (q - inject_Z f) (1 # 2) with
  | Lt => f
  | Gt => f + 1
  | Eq => if Z.even f then f else f + 1
  end.

(** [round(x, 2)]: Python rounds the exact value of [x] to two decimals,
    ties to even, and returns the double nearest to that decimal; the model
    keeps the decimal. nan and the infinities round to themselves. *)
Definition round2 (x : pyfloat) : pyfloat :=
  match x with
  | Num q => Num (round_half_even (q * 100) # 100)
  | _ => x
  end.

(** [max(iterable)]: the first item, replaced by each later item that
    compares greater; [None] is the [ValueError] on an empty iterable. *)
Definition py_max (xs : list pyfloat) : option pyfloat :=
  match xs with
  | [] => None
  | x :: rest =>
      Some (fold_left (fun m item => if float_gt item m then item else m) rest x)
  end.

(** ** Headings and their classification *)

Inductive Level : Type := H1 | H2 | H3.

(** Lines 138-144 of [extract_outline]: the tiered cutoff. *)
Definition classify (max_font min_h1 min_h2 min_h3 : pyfloat) : option Level :=
  if float_ge max_font min_h1 then Some H1
  else if float_ge max_font min_h2 then Some H2
  else if float_ge max_font min_h3 then Some H3
  else None.

Record Heading : Type := {
  level : Level;
  text : pystr;
  page : Z;
  font_size : pyfloat
}.

Record LinkRef : Type := { link_page : Z; uri : pystr }.

Record ImagePreview : Type := { preview_page : Z; preview : pystr }.

Record Metadata : Type := {
  pages_with_images : list Z;
  links : list LinkRef;
  image_previews : list ImagePreview
}.

(** ** Exceptions and fallible calls *)

Inductive Exn : Type :=
  | ValueError
  | LibraryError (msg : pystr).

Inductive outcome (A : Type) : Type :=
  | Raises (e : Exn)
  | Returns (a : A).
Arguments Raises {A} e.
Arguments Returns {A} a.

#[global] Instance outcome_bind : MBind outcome := fun A B k m =>
  match m with
  | Raises e => Raises e
  | Returns a => k a
  end.

(** ** The document as PyMuPDF presents it *)

Abbreviation bytes := (list Byte.byte).

(** The ["size"] entry of a span: absent, a value [float()] converts to a
    float, or a value on which [float()] raises. *)
Inductive SizeField : Type :=
  | SizeMissing
  | SizeValue (f : pyfloat)
  | SizeBad.

(** A span; [span_text = None] is a span without a ["text"] key. *)
Record Span : Type := { span_text : option pystr; span_size : SizeField }.

(** A line and its ["spans"] (an absent key reads as the empty list). *)
Record Line : Type := { line_spans : list Span }.

(** A block; [block_lines = None] is a block without a ["lines"] key. *)
Record Block : Type := { block_lines : option (list Line) }.

(** An entry of [page.get_images(full=True)]; only its first component, the
    cross-reference number, is read. *)
Record ImageRef : Type := { xref : Z }.

(** An entry of [page.get_links()]; [link_uri = None] is a link without a
    ["uri"] key. *)
Record LinkAnnot : Type := { link_uri : option pystr }.

Record Page : Type := {
  get_images : outcome (list ImageRef);
  get_links : outcome (list LinkAnnot);
  (** [page.get_text("dict").get("blocks", [])] *)
  get_text_blocks : outcome (list Block)
}.

Record Document : Type := {
  (** [doc.metadata.get("title")]: it raises when the metadata cannot be
      read, and returns [None] when the entry is absent or [None] *)
  metadata_title : outcome (option pystr);
  (** the pages as the iteration over the document loads them, one after
      the other; a page that cannot be loaded raises *)
  doc_pages : list (outcome Page);
  (** [doc.extract_image(xref).get("image")] *)
  extract_image : Z -> outcome (option bytes)
}.

Inductive Source : Type :=
  | SourceBytes (b : bytes)
  | SourcePath (p : pystr).

(** The libraries the extractor calls: PyMuPDF's [fitz.open], Pillow's
    [Image] operations and [base64.b64encode]. *)
Class Runtime : Type := {
  Raster : Type;
  fitz_open_stream : bytes -> outcome Document;
  fitz_open_path : pystr -> outcome Document;
  Image_open : bytes -> outcome Raster;
  Image_convert_RGB : Raster -> outcome Raster;
  Image_thumbnail : Raster -> Z * Z -> outcome Raster;
  Image_save_PNG : Raster -> outcome bytes;
  b64encode : bytes -> pystr
}.

Record Options : Type := {
  min_h1 : pyfloat;
  min_h2 : pyfloat;
  min_h3 : pyfloat;
  image_preview_max_size : Z;
  detect_first_image_only : bool
}.

(** The keyword defaults of [extract_outline]. *)
Definition default_options : Options := {|
  min_h1 := Num 18;
  min_h2 := Num 14;
  min_h3 := Num 10;
  image_preview_max_size := 160;
  detect_first_image_only := true
|}.

(** ** The extractor *)

Definition data_uri_prefix : pystr := py "data:image/png;base64,".

(** [_make_image_preview] *)
Definition _make_image_preview `{Runtime} (img_bytes : bytes) (max_size : Z)
  : outcome pystr :=
  img ← Image_open img_bytes;
  img ← Image_convert_RGB img;
  img ← Image_thumbnail img (max_size, max_size);
  buf ← Image_save_PNG img;
  Returns (data_uri_prefix ++ b64encode buf).

(** [fitz.open(stream=source, filetype="pdf")] or [fitz.open(str(source))] *)
Definition open_source `{Runtime} (source : Source) : outcome Document :=
  match source with
  | SourceBytes b => fitz_open_stream b
  | SourcePath p => fitz_open_path p
  end.

(** Lines 80-81: the title fallback. *)
Definition resolve_title (meta_title : option pystr) : pystr :=
  let title := match meta_title with Some t => t | None => [] end in
  match strip title with
  | [] => py "Untitled"
  | t => t
  end.

(** The accumulators of the page loop. *)
Record State : Type := {
  st_headings : list Heading;
  st_pages_with_images : gset Z;
  st_links : list LinkRef;
  st_image_previews : list ImagePreview
}.

Definition init_state : State := {|
  st_headings := [];
  st_pages_with_images := ∅;
  st_links := [];
  st_image_previews := []
|}.

Definition set_headings (st : State) (hs : list Heading) : State :=
  {| st_headings := hs;
     st_pages_with_images := st_pages_with_images st;
     st_links := st_links st;
     st_image_previews := st_image_previews st |}.

Definition add_image_page (st : State) (n : Z) : State :=
  {| st_headings := st_headings st;
     st_pages_with_images := {[n]} ∪ st_pages_with_images st;
     st_links := st_links st;
     st_image_previews := st_image_previews st |}.

Definition set_links (st : State) (ls : list LinkRef) : State :=
  {| st_headings := st_headings st;
     st_pages_with_images := st_pages_with_images st;
     st_links := ls;
     st_image_previews := st_image_previews st |}.

Definition set_image_previews (st : State) (ps : list ImagePreview) : State :=
  {| st_headings := st_headings st;
     st_pages_with_images := st_pages_with_images st;
     st_links := st_links st;
     st_image_previews := ps |}.

(** Lines 97-105: one image reference, with its own [try]. *)
Definition image_step `{Runtime} (doc : Document) (max_size page_number : Z)
    (previews : list ImagePreview) (img_meta : ImageRef) : list ImagePreview :=
  match extract_image doc (xref img_meta) with
  | Raises _ => previews
  | Returns None | Returns (Some []) => previews
  | Returns (Some img_bytes) =>
      match _make_image_preview img_bytes max_size with
      | Raises _ => previews
      | Returns p =>
          previews ++ [{| preview_page := page_number; preview := p |}]
      end
  end.

(** Line 95: [images[:1] if detect_first_image_only else images] *)
Definition imgs_to_process (first_only : bool) (images : list ImageRef)
  : list ImageRef :=
  if first_only then take 1 images else images.

(** Lines 90-107: the images of one page. *)
Definition scan_images `{Runtime} (doc : Document) (opts : Options)
    (page_number : Z) (pg : Page) (st : State) : State :=
  match get_images pg with
  | Raises _ => st
  | Returns [] => st
  | Returns images =>
      let st := add_image_page st page_number in
      set_image_previews st
        (fold_left
           (image_step doc (image_preview_max_size opts) page_number)
           (imgs_to_process (detect_first_image_only opts) images)
           (st_image_previews st))
  end.

(** Lines 110-116: the links of one page. *)
Definition link_step (page_number : Z) (acc : list LinkRef) (link : LinkAnnot)
  : list LinkRef :=
  match link_uri link with
  | None | Some [] => acc
  | Some u => acc ++ [{| link_page := page_number; uri := u |}]
  end.

Definition scan_links (page_number : Z) (pg : Page) (st : State) : State :=
  match get_links pg with
  | Raises _ => st
  | Returns ls => set_links st (fold_left (link_step page_number) ls (st_links st))
  end.

(** [float(span.get("size", 0))] *)
Definition span_font_size (sp : Span) : outcome pyfloat :=
  match span_size sp with
  | SizeMissing => Returns (Num 0)
  | SizeValue f => Returns f
  | SizeBad => Raises ValueError
  end.

Fixpoint span_font_sizes (spans : list Span) : outcome (list pyfloat) :=
  match spans with
  | [] => Returns []
  | sp :: rest =>
      f ← span_font_size sp;
      fs ← span_font_sizes rest;
      Returns (f :: fs)
  end.

(** Line 134: [max(float(span.get("size", 0)) for span in spans)] *)
Definition max_span_size (spans : list Span) : outcome pyfloat :=
  fs ← span_font_sizes spans;
  match py_max fs with
  | None => Raises ValueError
  | Some m => Returns m
  end.

(** Lines 133-136: the largest font size of the line, with its [try]. *)
Definition line_max_font (spans : list Span) : pyfloat :=
  match max_span_size spans with
  | Raises _ => Num 0
  | Returns m => m
  end.

(** [span.get("text", empty)], the default being the empty string *)
Definition span_text_or_empty (sp : Span) : pystr :=
  match span_text sp with Some t => t | None => [] end.

(** Line 129: the text of a line. *)
Definition line_text (spans : list Span) : pystr :=
  strip (join [space] (List.map span_text_or_empty spans)).

(** Lines 126-153: one line. *)
Definition line_step (opts : Options) (page_number : Z)
    (headings : list Heading) (line : Line) : list Heading :=
  let spans := line_spans line in
  match spans with
  | [] => headings
  | _ =>
      match line_text spans with
      | [] => headings
      | txt =>
          let max_font := line_max_font spans in
          match classify max_font (min_h1 opts) (min_h2 opts) (min_h3 opts) with
          | Some lv =>
              headings ++ [{| level := lv;
                              text := _normalize_text txt;
                              page := page_number;
                              font_size := round2 max_font |}]
          | None => headings
          end
      end
  end.

(** Lines 122-125: one block. *)
Definition block_step (opts : Options) (page_number : Z)
    (headings : list Heading) (block : Block) : list Heading :=
  match block_lines block with
  | None => headings
  | Some lines => fold_left (line_step opts page_number) lines headings
  end.

(** Lines 119-155: the headings of one page. *)
Definition scan_headings (opts : Options) (page_number : Z) (pg : Page)
    (st : State) : State :=
  match get_text_blocks pg with
  | Raises _ => st
  | Returns blocks =>
      set_headings st (fold_left (block_step opts page_number) blocks (st_headings st))
  end.

(** The body of the page loop. *)
Definition page_step `{Runtime} (doc : Document) (opts : Options)
    (st : State) (numbered : Z * Page) : State :=
  let '(page_number, pg) := numbered in
  scan_headings opts page_number pg
    (scan_links page_number pg
       (scan_images doc opts page_number pg st)).

(** [enumerate(l, start)], for a list in hand *)
Fixpoint enumerate {A : Type} (start : Z) (l : list A) : list (Z * A) :=
  match l with
  | [] => []
  | x :: l' => (start, x) :: enumerate (start + 1) l'
  end.

#[global] Instance Level_eq_dec : EqDecision Level.
Proof. solve_decision. Defined.

#[global] Instance Level_countable : Countable Level.
Proof.
  refine (inj_countable'
            (fun l => match l with H1 => 0%nat | H2 => 1%nat | H3 => 2%nat end)
            (fun n => match n with 0%nat => H1 | 1%nat => H2 | _ => H3 end) _).
  by intros [].
Defined.

Abbreviation Key := (Level * pystr * Z)%type.

(** Line 161: the deduplication key. *)
Definition heading_key (h : Heading) : Key :=
  (level h, lower (text h), page h).

(** Lines 160-164: one turn of the deduplication loop over
    [(seen, deduped_headings)]. *)
Definition dedup_step (acc : gset Key * list Heading) (h : Heading)
  : gset Key * list Heading :=
  let '(seen, deduped) := acc in
  let key := heading_key h in
  if decide (key ∈ seen) then acc
  else (({[key]} ∪ seen), deduped ++ [h]).

Definition dedup_headings (headings : list Heading) : list Heading :=
  snd (fold_left dedup_step headings (∅, [])).

(** [sorted(s)] of a set of integers. *)
Definition sorted (s : gset Z) : list Z := merge_sort Z.le (elements s).

(** Line 88: [for page_number, page in enumerate(doc, start=1)]. Loading a
    page happens in the [for] statement, outside every [try] of the body. *)
Fixpoint run_pages `{Runtime} (doc : Document) (opts : Options)
    (page_number : Z) (pages : list (outcome Page)) (st : State) : outcome State :=
  match pages with
  | [] => Returns st
  | Raises e :: _ => Raises e
  | Returns pg :: rest =>
      run_pages doc opts (page_number + 1) rest
        (page_step doc opts st (page_number, pg))
  end.

(** [extract_outline]. The result is the exception that left the function
    or the triple [(title, deduped_headings, metadata)]; closing the
    document in the [finally] clause changes neither. *)
Definition extract_outline `{Runtime} (source : Source) (opts : Options)
  : outcome (pystr * list Heading * Metadata) :=
  doc ← open_source source;
  meta_title ← metadata_title doc;
  let title := resolve_title meta_title in
  st ← run_pages doc opts 1 (doc_pages doc) init_state;
  Returns (title,
           dedup_headings (st_headings st),
           {| pages_with_images := sorted (st_pages_with_images st);
              links := st_links st;
              image_previews := st_image_previews st |}).

(** ** The wording of the specification, for comparison *)

(** "Collapses all whitespace runs to single spaces": [in_run] tells that
    the previous character was whitespace. *)
Fixpoint collapse_runs (in_run : bool) (s : pystr) : pystr :=
  match s with
  | [] => []
  | c :: s' =>
      if is_space c
      then if in_run then collapse_runs true s' else space :: collapse_runs true s'
      else c :: collapse_runs false s'
  end.

(** "... and trims leading/trailing whitespace". *)
Definition normalize_spec (s : pystr) : pystr := strip (collapse_runs false s).

(** Lowercase on the ASCII range alone: [A]-[Z] to [a]-[z], every other
    code point as it is. [str.lower()] is compared with it on ASCII
    strings. *)
Definition ascii_lower_char (c : N) : N :=
  if ((65 <=? c) && (c <=? 90))%N then (c + 32)%N else c.

(** Two headings have the same deduplication triple. *)
Definition same_triple (h h' : Heading) : Prop :=
  level h = level h' ∧ lower (text h) = lower (text h') ∧ page h = page h'.

(** The keys of a heading sequence, in order. *)
Definition keys_of (hs : list Heading) : list Key := List.map heading_key hs.

(** The pages of a document when all of them load, the first failure
    otherwise. *)
Fixpoint load_pages (pages : list (outcome Page)) : outcome (list Page) :=
  match pages with
  | [] => Returns []
  | Raises e :: _ => Raises e
  | Returns pg :: rest =>
      match load_pages rest with
      | Raises e => Raises e
      | Returns pgs => Returns (pg :: pgs)
      end
  end.

(** Reading a document: opening it, reading its title entry and loading its
    pages, the steps of [extract_outline] that no [try] surrounds. *)
Definition read_document `{Runtime} (source : Source)
  : outcome (Document * option pystr * list Page) :=
  doc ← open_source source;
  meta_title ← metadata_title doc;
  pages ← load_pages (doc_pages doc);
  Returns (doc, meta_title, pages).

(** The page numbered [n] (from 1). *)
Definition page_at (pages : list Page) (n : Z) : option Page :=
  if 1 <=? n then pages !! Z.to_nat (n - 1) else None.

(** A page has an image reference when its image listing returns a
    non-empty list. *)
Definition has_image_ref (pg : Page) : Prop :=
  ∃ images, get_images pg = Returns images ∧ images ≠ [].

(** A span that carries a number as its size, or no size at all. *)
Definition usable_size (sp : Span) : Prop :=
  match span_size sp with
  | SizeMissing => True
  | SizeValue f => is_nan f = false
  | SizeBad => False
  end.

(** A span that lacks a usable size: no entry, or one [float()] rejects. *)
Definition lacks_size (sp : Span) : Prop :=
  span_size sp = SizeMissing ∨ span_size sp = SizeBad.

(** The previews of page [n] in a preview sequence. *)
Definition previews_of_page (n : Z) (ps : list ImagePreview) : list ImagePreview :=
  List.filter (fun p => preview_page p =? n) ps.

(** ** A small runtime and documents to evaluate the extractor on *)

Definition sample_runtime (doc : Document) : Runtime := {|
  Raster := bytes;
  fitz_open_stream := fun b =>
    match b with
    | [] => Raises (LibraryError (py "cannot open empty document"))
    | _ => Returns doc
    end;
  fitz_open_path := fun p =>
    match p with
    | [] => Raises (LibraryError (py "no such file"))
    | _ => Returns doc
    end;
  Image_open := fun b =>
    match b with
    | Byte.x00 :: _ => Raises (LibraryError (py "cannot identify image file"))
    | _ => Returns b
    end;
  Image_convert_RGB := fun r => Returns r;
  Image_thumbnail := fun r _ => Returns r;
  Image_save_PNG := fun r => Returns r;
  b64encode := fun b => List.map Byte.to_N b
|}.

Definition sample_source : Source := SourceBytes [Byte.x25; Byte.x50; Byte.x44; Byte.x46].

Definition mk_span (t : string) (size : Q) : Span :=
  {| span_text := Some (py t); span_size := SizeValue (Num size) |}.

Definition mk_line (spans : list Span) : Block :=
  {| block_lines := Some [{| line_spans := spans |}] |}.

Definition text_page (blocks : list Block) : Page :=
  {| get_images := Returns []; get_links := Returns [];
     get_text_blocks := Returns blocks |}.

Definition text_doc (title : option pystr) (blocks : list Block) : Document :=
  {| metadata_title := Returns title;
     doc_pages := [Returns (text_page blocks)];
     extract_image := fun _ => Raises (LibraryError (py "bad xref")) |}.

(** One page: a 20pt line, a 12pt line, an external link, two images of
    which the second cannot be decoded; then a page without content whose
    image listing fails. *)
Definition sample_pages : list Page :=
  [ {| get_images := Returns [{| xref := 7 |}; {| xref := 8 |}];
       get_links := Returns [{| link_uri := Some (py "https://example.com") |};
                             {| link_uri := None |}];
       get_text_blocks :=
         Returns [mk_line [mk_span "Chapter 1" 20];
                  {| block_lines := None |};
                  mk_line [mk_span "Section 1.1" 12]] |};
    {| get_images := Raises (LibraryError (py "broken content stream"));
       get_links := Returns [];
       get_text_blocks := Returns [] |} ].

Definition sample_doc : Document :=
  {| metadata_title := Returns None;
     doc_pages := List.map Returns sample_pages;
     extract_image := fun x =>
       if x =? 7 then Returns (Some [Byte.x89; Byte.x50])
       else if x =? 8 then Returns (Some [Byte.x00])
       else Raises (LibraryError (py "bad xref")) |}.

(** A line of two spans, as a font change inside a word produces. *)
Definition split_word_doc : Document :=
  text_doc None [mk_line [mk_span "Chap" 20; mk_span "ter" 20]].

(** A title with blanks around it. *)
Definition padded_title_doc : Document :=
  text_doc (Some (py " Report ")) [].

(** A document whose second page cannot be loaded. *)
Definition broken_page_doc : Document :=
  {| metadata_title := Returns None;
     doc_pages := [Returns (text_page [mk_line [mk_span "Chapter 1" 20]]);
                   Raises (LibraryError (py "cannot load page"))];
     extract_image := fun _ => Raises (LibraryError (py "bad xref")) |}.

(** A line whose span has a size [float()] rejects, and thresholds of which
    the lowest is zero. *)
Definition bad_size_span : Span :=
  {| span_text := Some (py "x"); span_size := SizeBad |}.



Definition all_images_options : Options := {|
  min_h1 := Num 18;
  min_h2 := Num 14;
  min_h3 := Num 10;
  image_preview_max_size := 160;
  detect_first_image_only := false
|}.

(** The word [ECOLE] with an acute accent on its first letter, in capitals,
    in small letters and capitalised; a Greek word in capitals that ends in
    a sigma, and in small letters. *)
Definition ecole_upper : pystr := [201; 67; 79; 76; 69]%N.
Definition ecole_lower : pystr := [233; 99; 111; 108; 101]%N.
Definition ecole_title : pystr := [201; 99; 111; 108; 101]%N.
Definition odos_upper : pystr := [927; 916; 927; 931]%N.
Definition odos_lower : pystr := [959; 948; 959; 962]%N.

Definition mk_heading (lv : Level) (t : pystr) (n : Z) : Heading :=
  {| level := lv; text := t; page := n; font_size := Num 20 |}.

(** A page with two images that both decode. *)
Definition two_images_pages : list Page :=
  [ {| get_images := Returns [{| xref := 7 |}; {| xref := 9 |}];
       get_links := Returns [];
       get_text_blocks := Returns [] |} ].

Definition two_images_doc : Document :=
  {| metadata_title := Returns None;
     doc_pages := List.map Returns two_images_pages;
     extract_image := fun x =>
       if x =? 7 then Returns (Some [Byte.x89; Byte.x50])
       else if x =? 9 then Returns (Some [Byte.xff; Byte.xd8])
       else Raises (LibraryError (py "bad xref")) |}.

(** ** Recursive forms of the loops, for the proofs *)

(** The deduplication loop started with [seen]: what it appends. *)
Fixpoint dedup_from (seen : gset Key) (hs : list Heading) : list Heading :=
  match hs with
  | [] => []
  | h :: rest =>
      if decide (heading_key h ∈ seen) then dedup_from seen rest
      else h :: dedup_from ({[heading_key h]} ∪ seen) rest
  end.

(** What one image reference adds to the previews: the attempt on it. *)
Definition preview_attempt `{Runtime} (doc : Document) (max_size n : Z)
    (img_meta : ImageRef) : list ImagePreview :=
  image_step doc max_size n [] img_meta.

(** What one page adds to each accumulator. *)
Definition page_previews `{Runtime} (doc : Document) (opts : Options) (n : Z)
    (pg : Page) : list ImagePreview :=
  match get_images pg with
  | Raises _ => []
  | Returns images =>
      flat_map (preview_attempt doc (image_preview_max_size opts) n)
        (imgs_to_process (detect_first_image_only opts) images)
  end.

Definition page_image_set (n : Z) (pg : Page) : gset Z :=
  match get_images pg with
  | Returns (_ :: _) => {[n]}
  | _ => ∅
  end.

Definition link_entry (n : Z) (link : LinkAnnot) : list LinkRef :=
  link_step n [] link.

Definition page_links (n : Z) (pg : Page) : list LinkRef :=
  match get_links pg with
  | Raises _ => []
  | Returns ls => flat_map (link_entry n) ls
  end.

Definition line_headings (opts : Options) (n : Z) (line : Line) : list Heading :=
  line_step opts n [] line.

Definition block_headings (opts : Options) (n : Z) (block : Block) : list Heading :=
  match block_lines block with
  | None => []
  | Some lines => flat_map (line_headings opts n) lines
  end.

Definition page_headings (opts : Options) (n : Z) (pg : Page) : list Heading :=
  match get_text_blocks pg with
  | Raises _ => []
  | Returns blocks => flat_map (block_headings opts n) blocks
  end.

(** The accumulators after the page loop, page by page. *)
Definition all_headings (opts : Options) (pages : list Page) : list Heading :=
  flat_map (fun np => page_headings opts np.1 np.2) (enumerate 1 pages).

Definition all_links (pages : list Page) : list LinkRef :=
  flat_map (fun np => page_links np.1 np.2) (enumerate 1 pages).

Definition all_previews `{Runtime} (doc : Document) (opts : Options)
    (pages : list Page) : list ImagePreview :=
  flat_map (fun np => page_previews doc opts np.1 np.2) (enumerate 1 pages).

(** A string that does not begin with whitespace. *)
Definition starts_clean (s : pystr) : Prop :=
  match s with
  | [] => True
  | c :: _ => is_space c = false
  end.

(** A string without whitespace. *)
Definition no_space (s : pystr) : Prop := Forall (fun c => is_space c = false) s.


(** ** Where headings and links come from *)

(** The line [line] of page number [n] yields the heading [h]. *)
Definition line_yields (opts : Options) (n : Z) (line : Line) (h : Heading) : Prop :=
  line_spans line ≠ [] ∧
  line_text (line_spans line) ≠ [] ∧
  ∃ lv,
    classify (line_max_font (line_spans line))
      (min_h1 opts) (min_h2 opts) (min_h3 opts) = Some lv ∧
    h = {| level := lv;
           text := _normalize_text (line_text (line_spans line));
           page := n;
           font_size := round2 (line_max_font (line_spans line)) |}.

(** [line] is a line of a text block of the page. *)
Definition line_of_page (pg : Page) (line : Line) : Prop :=
  ∃ blocks block lines,
    get_text_blocks pg = Returns blocks ∧ block ∈ blocks ∧
    block_lines block = Some lines ∧ line ∈ lines.

(** [link] is a link annotation of the page. *)
Definition link_of_page (pg : Page) (link : LinkAnnot) : Prop :=
  ∃ ls, get_links pg = Returns ls ∧ link ∈ ls.

(** The entries of page [n] in a link sequence. *)
Definition links_of_page (n : Z) (ls : list LinkRef) : list LinkRef :=
  List.filter (fun r => link_page r =? n) ls.

(** Page order: no entry bears a smaller page number than an earlier one. *)
Definition in_page_order {B : Type} (page_of : B → Z) (l : list B) : Prop :=
  StronglySorted (fun a b => page_of a ≤ page_of b) l.

(** The options that bear on headings, and those that bear on previews. *)
Definition same_thresholds (o1 o2 : Options) : Prop :=
  min_h1 o1 = min_h1 o2 ∧ min_h2 o1 = min_h2 o2 ∧ min_h3 o1 = min_h3 o2.

Definition same_image_options (o1 o2 : Options) : Prop :=
  image_preview_max_size o1 = image_preview_max_size o2 ∧
  detect_first_image_only o1 = detect_first_image_only o2.

(** The image reference [img] of a page yields the preview text [p]. *)
Definition image_yields `{Runtime} (doc : Document) (opts : Options) (pg : Page)
    (img : ImageRef) (p : pystr) : Prop :=
  ∃ images img_bytes,
    get_images pg = Returns images ∧
    img ∈ imgs_to_process (detect_first_image_only opts) images ∧
    extract_image doc (xref img) = Returns (Some img_bytes) ∧
    img_bytes ≠ [] ∧
    _make_image_preview img_bytes (image_preview_max_size opts) = Returns p.

(** The headings of page [n] in a heading sequence. *)
Definition headings_of_page (n : Z) (hs : list Heading) : list Heading :=
  List.filter (fun h => page h =? n) hs.

(** The rank of a classification: no heading below H3 below H2 below H1. *)
Definition level_rank (lv : option Level) : nat :=
  match lv with
  | None => 0
  | Some H3 => 1
  | Some H2 => 2
  | Some H1 => 3
  end.

(** ** The batch driver of [main.py] *)

(** [name.rfind(".")], counting from [i]; [None] is the -1 of Python. *)
Fixpoint rfind_dot_from (i : nat) (name : pystr) : option nat :=
  match name with
  | [] => None
  | c :: rest =>
      match rfind_dot_from (S i) rest with
      | Some j => Some j
      | None => if (c =? 46)%N then Some i else None
      end
  end.

(** [PurePath.stem] of a file name: the name up to its last dot, when that
    dot is neither the first nor the last character. *)
Definition path_stem (name : pystr) : pystr :=
  match rfind_dot_from 0 name with
  | Some i =>
      if ((0 <? i) && (i <? List.length name - 1))%nat then take i name else name
  | None => name
  end.

(** Line 40: the name of [OUTPUT_DIR / f"{filepath.stem}.json"] in the
    output folder, for the file [name] of the input folder. *)
Definition output_name (name : pystr) : pystr := path_stem name ++ py ".json".

(** [str(INPUT_DIR / name)] *)
Definition input_path (name : pystr) : pystr := py "input/" ++ name.

(** The pattern ["*.pdf"] of [glob]: the names that end in [.pdf]. *)
Definition is_pdf_name (name : pystr) : bool :=
  bool_decide (drop (List.length name - 4) name = py ".pdf").

(** The order of paths of one folder: the order of their names, code point
    by code point. *)
Fixpoint str_leb (a b : pystr) : bool :=
  match a, b with
  | [], _ => true
  | _ :: _, [] => false
  | x :: a', y :: b' =>
      if (x <? y)%N then true
      else if (x =? y)%N then str_leb a' b' else false
  end.

Definition name_le (a b : pystr) : Prop := str_leb a b = true.

#[global] Instance name_le_dec : RelDecision name_le.
Proof. intros a b. unfold name_le. apply _. Defined.

(** What [process_pdf] sees of the file system, in which the output folder
    exists: the entries of the input folder ([None] when the folder does not
    exist) and the text of the files of the output folder. *)
Record World : Type := {
  input_entries : option (list pystr);
  output_files : gmap pystr pystr
}.

Definition set_output_file (w : World) (name text : pystr) : World :=
  {| input_entries := input_entries w;
     output_files := <[name := text]> (output_files w) |}.

(** What the driver needs besides the extractor: whether the output folder
    can be made when it is missing, whether a file of the output folder can
    be opened for writing, and the text [json.dump] writes for a result (the
    dump of a result of the extractor is taken to succeed). The log records
    and the timing are not modelled. *)
Class Output : Type := {
  can_make_output_dir : bool;
  can_write : pystr -> bool;
  json_dump : pystr * list Heading * Metadata -> pystr
}.

(** [process_pdf] on the file [name] of the input folder. Every exception
    is caught and logged, so the function returns in all cases. *)
Definition process_pdf `{Runtime} `{Output} (name : pystr) (overwrite : bool)
    (w : World) : World :=
  match extract_outline (SourcePath (input_path name)) default_options with
  | Raises _ => w
  | Returns output_data =>
      let out_file := output_name name in
      if bool_decide (is_Some (output_files w !! out_file)) && negb overwrite
      then w
      else if can_write out_file
           then set_output_file w out_file (json_dump output_data)
           else w
  end.

(** [sorted(INPUT_DIR.glob("*.pdf"))], as names *)
Definition pdf_files (entries : list pystr) : list pystr :=
  merge_sort name_le (List.filter is_pdf_name entries).

(** What [main] finds of the file system: the entries of the input folder
    and the files of the output folder, each [None] when the folder does not
    exist. *)
Record Disk : Type := {
  disk_input : option (list pystr);
  disk_output : option (gmap pystr pystr)
}.

(** Line 56: [OUTPUT_DIR.mkdir(parents=True, exist_ok=True)]. A folder that
    exists is left as it is; a missing one is made, empty, or the call
    raises. What is returned is the file system with the folder in place. *)
Definition mkdir_output `{Output} (d : Disk) : outcome World :=
  match disk_output d with
  | Some files => Returns {| input_entries := disk_input d; output_files := files |}
  | None =>
      if can_make_output_dir
      then Returns {| input_entries := disk_input d; output_files := ∅ |}
      else Raises (LibraryError (py "cannot create the output folder"))
  end.

Definition disk_of (w : World) : Disk :=
  {| disk_input := input_entries w; disk_output := Some (output_files w) |}.

(** [main]: the file system it leaves, or the exception of making the
    output folder. The output folder is made before the input folder is
    looked at. *)
Definition main `{Runtime} `{Output} (d : Disk) : outcome Disk :=
  w ← mkdir_output d;
  match input_entries w with
  | None => Returns (disk_of w)
  | Some entries =>
      match pdf_files entries with
      | [] => Returns (disk_of w)
      | files =>
          Returns (disk_of (fold_left (fun w name => process_pdf name true w) files w))
      end
  end.

(** A runtime that opens two of three files, and an output folder. *)
Definition batch_runtime : Runtime := {|
  Raster := bytes;
  fitz_open_stream := fun _ => Raises (LibraryError (py "not used"));
  fitz_open_path := fun p =>
    if bool_decide (p = py "input/a.pdf") then Returns sample_doc
    else if bool_decide (p = py "input/c.pdf") then Returns split_word_doc
    else Raises (LibraryError (py "cannot open broken document"));
  Image_open := fun b => Returns b;
  Image_convert_RGB := fun r => Returns r;
  Image_thumbnail := fun r _ => Returns r;
  Image_save_PNG := fun r => Returns r;
  b64encode := fun b => List.map Byte.to_N b
|}.

Definition batch_output : Output := {|
  can_make_output_dir := true;
  can_write := fun _ => true;
  json_dump := fun r => r.1.1
|}.

Definition batch_world : World := {|
  input_entries := Some [py "c.pdf"; py "notes.txt"; py "b.pdf"; py "a.pdf"];
  output_files := {[ py "b.json" := py "old" ]}
|}.

(** The same folders as [main] finds them; an input folder without an
    output folder; and no folder at all. *)
Definition batch_disk : Disk := disk_of batch_world.

Definition fresh_disk : Disk := {|
  disk_input := Some [py "c.pdf"; py "notes.txt"; py "b.pdf"; py "a.pdf"];
  disk_output := None
|}.

Definition empty_disk : Disk := {| disk_input := None; disk_output := None |}.

(** * Properties *)

(** ** The order on floats *)

Lemma float_ge_not_nan x y : float_ge x y = true → is_nan x = false ∧ is_nan y = false.
Proof. by destruct x, y. Qed.

Lemma float_ge_refl x : is_nan x = false → float_ge x x = true.
Proof.
  destruct x; simpl; try done.
  intros _. apply Qle_bool_iff. apply Qle_refl.
Qed.

(** Away from nan, [x >= y] fails exactly when [x < y]. *)
Lemma float_ge_false_lt x y :
  is_nan x = false → is_nan y = false →
  float_ge x y = false ↔ float_lt x y = true.
Proof.
  unfold float_lt.
  destruct x, y; simpl; try done.
  intros _ _. by rewrite negb_true_iff.
Qed.

Lemma float_lt_not_ge x y : float_lt x y = true → float_ge x y = false.
Proof.
  unfold float_lt.
  destruct x, y; simpl; try done.
  by rewrite negb_true_iff.
Qed.

Lemma float_lt_ge_trans x y z :
  float_lt x y = true → float_ge z y = true → float_lt x z = true.
Proof.
  unfold float_lt.
  destruct x, y, z; simpl; try done.
  rewrite !negb_true_iff, <- !not_true_iff_false, !Qle_bool_iff.
  intros Hxy Hyz Hzx. apply Hxy. by apply Qle_trans with q1.
Qed.

Lemma float_eq_ge x y : float_eq x y = true → float_ge x y = true.
Proof.
  destruct x, y; simpl; try done.
  rewrite Qeq_bool_iff, Qle_bool_iff. intros ->. apply Qle_refl.
Qed.

Lemma float_gt_ge x y : float_gt x y = true → float_ge x y = true.
Proof.
  destruct x, y; simpl; try done.
  rewrite negb_true_iff, <- not_true_iff_false, !Qle_bool_iff.
  intros Hn. apply Qlt_le_weak. by apply Qnot_le_lt.
Qed.

Lemma float_ge_trans x y z :
  float_ge x y = true → float_ge y z = true → float_ge x z = true.
Proof.
  destruct x, y, z; simpl; try done.
  rewrite !Qle_bool_iff. intros ? ?. by apply Qle_trans with q0.
Qed.

(** Away from nan the order is total. *)
Lemma float_gt_false_ge x y :
  is_nan x = false → is_nan y = false →
  float_gt x y = false → float_ge y x = true.
Proof.
  destruct x, y; simpl; try done.
  intros _ _. by rewrite negb_false_iff.
Qed.

(** ** C1: the tiered cutoff *)

Lemma classify_H1 s m1 m2 m3 :
  classify s m1 m2 m3 = Some H1 ↔ float_ge s m1 = true.
Proof.
  unfold classify.
  destruct (float_ge s m1), (float_ge s m2), (float_ge s m3);
    intuition congruence.
Qed.

Lemma classify_H2 s m1 m2 m3 :
  classify s m1 m2 m3 = Some H2 ↔ float_ge s m2 = true ∧ float_ge s m1 = false.
Proof.
  unfold classify.
  destruct (float_ge s m1), (float_ge s m2), (float_ge s m3);
    intuition congruence.
Qed.

Lemma classify_H3 s m1 m2 m3 :
  classify s m1 m2 m3 = Some H3 ↔
  float_ge s m3 = true ∧ float_ge s m2 = false ∧ float_ge s m1 = false.
Proof.
  unfold classify.
  destruct (float_ge s m1), (float_ge s m2), (float_ge s m3);
    intuition congruence.
Qed.

Lemma classify_None s m1 m2 m3 :
  classify s m1 m2 m3 = None ↔
  float_ge s m3 = false ∧ float_ge s m2 = false ∧ float_ge s m1 = false.
Proof.
  unfold classify.
  destruct (float_ge s m1), (float_ge s m2), (float_ge s m3);
    intuition congruence.
Qed.

(** A size that is not a number is below no threshold and reaches none: it
    yields no heading. *)
Lemma classify_nan m1 m2 m3 : classify NaN m1 m2 m3 = None.
Proof. reflexivity. Qed.

(** C1. For every font size [s] (a number) and thresholds
    [min_h1 >= min_h2 >= min_h3], the classification is H1 iff
    [s >= min_h1], H2 iff [min_h2 <= s < min_h1], H3 iff
    [min_h3 <= s < min_h2], and no heading iff [s < min_h3]; a size equal
    to a threshold falls into the higher of the two tiers the threshold
    separates. *)
Theorem classify_tiers (s m1 m2 m3 : pyfloat) :
  is_nan s = false →
  float_ge m1 m2 = true →
  float_ge m2 m3 = true →
  (classify s m1 m2 m3 = Some H1 ↔ float_ge s m1 = true) ∧
  (classify s m1 m2 m3 = Some H2 ↔ float_ge s m2 = true ∧ float_lt s m1 = true) ∧
  (classify s m1 m2 m3 = Some H3 ↔ float_ge s m3 = true ∧ float_lt s m2 = true) ∧
  (classify s m1 m2 m3 = None ↔ float_lt s m3 = true) ∧
  (float_eq s m1 = true → classify s m1 m2 m3 = Some H1) ∧
  (float_eq s m2 = true → float_lt s m1 = true → classify s m1 m2 m3 = Some H2) ∧
  (float_eq s m3 = true → float_lt s m2 = true → classify s m1 m2 m3 = Some H3).
Proof.
  intros Hs H12 H23.
  destruct (float_ge_not_nan _ _ H12) as [Hm1 Hm2].
  destruct (float_ge_not_nan _ _ H23) as [_ Hm3].
  assert (Hlt2 : float_lt s m2 = true → float_lt s m1 = true)
    by (intros ?; by apply float_lt_ge_trans with m2).
  assert (Hlt3 : float_lt s m3 = true → float_lt s m2 = true)
    by (intros ?; by apply float_lt_ge_trans with m3).
  rewrite classify_H1, classify_H2, classify_H3, classify_None.
  rewrite !float_ge_false_lt by done.
  pose proof (float_eq_ge s m1). pose proof (float_eq_ge s m2).
  pose proof (float_eq_ge s m3). intuition auto.
Qed.

Lemma classify_tiers_witness :
  classify (Num 14) (Num 18) (Num 14) (Num 10) = Some H2.
Proof.
  destruct (classify_tiers (Num 14) (Num 18) (Num 14) (Num 10)
              eq_refl eq_refl eq_refl) as (_ & _ & _ & _ & _ & Hb & _).
  apply Hb; reflexivity.
Defined.

(** ** C2: deduplication *)

Lemma fold_dedup_step hs seen acc :
  fold_left dedup_step hs (seen, acc)
  = (list_to_set (keys_of hs) ∪ seen, acc ++ dedup_from seen hs).
Proof.
  revert seen acc. induction hs as [|h hs IH]; intros seen acc; simpl.
  - f_equal; [set_solver | by rewrite app_nil_r].
  - destruct (decide (heading_key h ∈ seen)) as [Hin|Hnin].
    + rewrite IH. f_equal. set_solver.
    + rewrite IH, <- app_assoc. f_equal. set_solver.
Qed.

Lemma dedup_headings_from hs : dedup_headings hs = dedup_from ∅ hs.
Proof. unfold dedup_headings. by rewrite fold_dedup_step. Qed.

Lemma dedup_from_sublist seen hs : sublist (dedup_from seen hs) hs.
Proof.
  revert seen. induction hs as [|h hs IH]; intros seen; simpl.
  - constructor.
  - destruct (decide _); [apply sublist_cons | apply sublist_skip]; apply IH.
Qed.

Lemma dedup_from_keys seen hs k :
  k ∈ keys_of (dedup_from seen hs) ↔ k ∈ keys_of hs ∧ k ∉ seen.
Proof.
  unfold keys_of.
  revert seen. induction hs as [|h hs IH]; intros seen; simpl.
  - set_solver.
  - destruct (decide (heading_key h ∈ seen)) as [Hin|Hnin]; simpl.
    + rewrite IH. set_solver.
    + rewrite !elem_of_cons, IH.
      destruct (decide (k = heading_key h)); set_solver.
Qed.

Lemma dedup_from_NoDup seen hs : NoDup (keys_of (dedup_from seen hs)).
Proof.
  revert seen. induction hs as [|h hs IH]; intros seen; simpl.
  - constructor.
  - destruct (decide (heading_key h ∈ seen)) as [Hin|Hnin]; simpl; [apply IH|].
    constructor; [|apply IH].
    rewrite (dedup_from_keys _ hs). set_solver.
Qed.

Lemma dedup_from_snoc seen hs h :
  dedup_from seen (hs ++ [h])
  = dedup_from seen hs
    ++ (if decide (heading_key h ∈ seen ∨ heading_key h ∈ keys_of hs)
        then [] else [h]).
Proof.
  unfold keys_of.
  revert seen. induction hs as [|x hs IH]; intros seen; simpl.
  - destruct (decide (heading_key h ∈ seen)), (decide (_ ∨ _)); set_solver.
  - destruct (decide (heading_key x ∈ seen)) as [Hin|Hnin]; simpl; rewrite IH.
    + f_equal. apply decide_ext. rewrite elem_of_cons.
      split; [tauto|]. intros [?|[Heq|?]]; auto. left. by rewrite Heq.
    + f_equal. f_equal. apply decide_ext.
      rewrite elem_of_cons, elem_of_union, elem_of_singleton. tauto.
Qed.

(** A sequence without repeated keys, none of them seen, is left as it is. *)
Lemma dedup_from_fixed seen hs :
  NoDup (keys_of hs) → (∀ k, k ∈ keys_of hs → k ∉ seen) →
  dedup_from seen hs = hs.
Proof.
  unfold keys_of.
  revert seen. induction hs as [|h hs IH]; intros seen Hnd Hfresh; simpl; [done|].
  simpl in Hnd. apply NoDup_cons in Hnd as [Hh Hnd].
  destruct (decide (heading_key h ∈ seen)) as [Hin|Hnin].
  - exfalso. apply (Hfresh (heading_key h)); [apply elem_of_cons; by left | done].
  - f_equal. apply IH; [done|].
    intros k Hk. rewrite elem_of_union, elem_of_singleton.
    intros [->|Hs]; [done|].
    apply (Hfresh k); [apply elem_of_cons; by right | done].
Qed.

(** On ASCII code points the lowercase mapping is the ASCII one. *)
Lemma to_lower_full_ascii_range :
  forallb (λ c, bool_decide (to_lower_full c = [ascii_lower_char c]))
    (List.map N.of_nat (seq 0 128)) = true.
Proof. vm_compute. reflexivity. Qed.

Lemma to_lower_full_ascii c :
  (c < 128)%N → to_lower_full c = [ascii_lower_char c].
Proof.
  intros Hc.
  pose proof (proj1 (forallb_forall _ _) to_lower_full_ascii_range c) as Hall.
  apply bool_decide_eq_true in Hall; [done|].
  replace c with (N.of_nat (N.to_nat c)) by apply N2Nat.id.
  apply in_map, in_seq. lia.
Qed.

Lemma lower_go_ascii before s :
  Forall (λ c, (c < 128)%N) s → lower_go before s = List.map ascii_lower_char s.
Proof.
  intros Hs. revert before. induction Hs as [|c s Hc _ IH]; intros before; simpl; [done|].
  assert ((c =? 931)%N = false) as -> by (apply N.eqb_neq; lia).
  by rewrite to_lower_full_ascii, IH.
Qed.

Lemma heading_key_triple h h' : heading_key h = heading_key h' ↔ same_triple h h'.
Proof.
  unfold heading_key, same_triple. split.
  - intros [= Hl Ht Hp]. done.
  - intros (-> & -> & ->). done.
Qed.

Lemma elem_of_keys_of h hs :
  heading_key h ∈ keys_of hs ↔ ∃ h', h' ∈ hs ∧ same_triple h' h.
Proof.
  unfold keys_of. rewrite list_elem_of_In, in_map_iff. split.
  - intros (h' & Hk & Hin). exists h'. split; [by apply list_elem_of_In|].
    by apply heading_key_triple.
  - intros (h' & Hin & Hk). exists h'. split; [by apply heading_key_triple|].
    by apply list_elem_of_In.
Qed.

Lemma dedup_headings_snoc hs h :
  dedup_headings (hs ++ [h])
  = dedup_headings hs ++ (if decide (heading_key h ∈ keys_of hs) then [] else [h]).
Proof.
  rewrite !dedup_headings_from, dedup_from_snoc.
  f_equal. apply decide_ext.
  split; [intros [Hk|Hk]; [by apply not_elem_of_empty in Hk | done] | by right].
Qed.

(** C2. Deduplication appends a heading exactly when its key
    [(level, lowercase text, page)] has not occurred earlier in the
    sequence, so it keeps the first occurrence of every key and drops the
    later ones; what it keeps is a subsequence of the input (nothing is
    reordered), holds every key of the input exactly once, and is left
    unchanged by a second deduplication. Two headings have the same key
    exactly when they agree on the level, on the lowercase of the text and
    on the page: a heading is dropped when an earlier one agrees with it on
    the three, and kept when every earlier one differs from it on one of
    them. The lowercase is that of [str.lower()]: on ASCII text it turns
    [A]-[Z] into [a]-[z] and nothing else, and it lowers the letters outside
    ASCII as well (accented capitals, the Greek final sigma). *)
Theorem dedup_keeps_first_occurrences :
  dedup_headings [] = [] ∧
  (∀ hs h, dedup_headings (hs ++ [h])
           = dedup_headings hs
             ++ (if decide (heading_key h ∈ keys_of hs) then [] else [h])) ∧
  (∀ hs, sublist (dedup_headings hs) hs) ∧
  (∀ hs, NoDup (keys_of (dedup_headings hs))) ∧
  (∀ hs k, k ∈ keys_of (dedup_headings hs) ↔ k ∈ keys_of hs) ∧
  (∀ hs, dedup_headings (dedup_headings hs) = dedup_headings hs) ∧
  (∀ h h', heading_key h = heading_key h'
           ↔ level h = level h' ∧ lower (text h) = lower (text h')
             ∧ page h = page h') ∧
  (∀ hs h,
     (∃ h', h' ∈ hs ∧ level h' = level h ∧ lower (text h') = lower (text h)
            ∧ page h' = page h) →
     dedup_headings (hs ++ [h]) = dedup_headings hs) ∧
  (∀ hs h,
     (∀ h', h' ∈ hs → level h' ≠ level h ∨ lower (text h') ≠ lower (text h)
                      ∨ page h' ≠ page h) →
     dedup_headings (hs ++ [h]) = dedup_headings hs ++ [h]) ∧
  (∀ s, Forall (λ c, (c < 128)%N) s → lower s = List.map ascii_lower_char s) ∧
  lower (py "Chapter ONE") = py "chapter one" ∧
  lower ecole_upper = ecole_lower ∧
  lower ecole_title = ecole_lower ∧
  lower odos_upper = odos_lower.
Proof.
  split; [done|].
  split; [apply dedup_headings_snoc|].
  split; [intros hs; rewrite dedup_headings_from; apply dedup_from_sublist|].
  split; [intros hs; rewrite dedup_headings_from; apply dedup_from_NoDup|].
  split.
  { intros hs k. rewrite dedup_headings_from, dedup_from_keys.
    split; [tauto|]. intros Hk. split; [done | apply not_elem_of_empty]. }
  split.
  { intros hs. rewrite !dedup_headings_from.
    apply dedup_from_fixed; [apply dedup_from_NoDup |].
    intros k _. apply not_elem_of_empty. }
  split; [apply heading_key_triple|].
  split.
  { intros hs h Hdup. rewrite dedup_headings_snoc.
    rewrite decide_True by (by apply elem_of_keys_of).
    apply app_nil_r. }
  split.
  { intros hs h Hnew. rewrite dedup_headings_snoc.
    rewrite decide_False; [done|].
    intros (h' & Hin & Hl & Ht & Hp)%elem_of_keys_of.
    destruct (Hnew h' Hin) as [?|[?|?]]; done. }
  split; [intros s Hs; by apply lower_go_ascii|].
  repeat split; vm_compute; reflexivity.
Qed.

(** The capitalised word and the word in capitals are one heading on the
    same page at the same level, and two on different pages or levels. *)
Lemma dedup_keeps_first_occurrences_witness :
  dedup_headings ([mk_heading H1 ecole_title 1] ++ [mk_heading H1 ecole_upper 1])
  = dedup_headings [mk_heading H1 ecole_title 1] ∧
  dedup_headings ([mk_heading H1 ecole_title 1] ++ [mk_heading H1 ecole_upper 2])
  = dedup_headings [mk_heading H1 ecole_title 1] ++ [mk_heading H1 ecole_upper 2] ∧
  dedup_headings ([mk_heading H1 ecole_title 1] ++ [mk_heading H2 ecole_upper 1])
  = dedup_headings [mk_heading H1 ecole_title 1] ++ [mk_heading H2 ecole_upper 1].
Proof.
  destruct dedup_keeps_first_occurrences
    as (_ & _ & _ & _ & _ & _ & _ & Hdrop & Hkeep & _).
  split; [|split].
  - apply Hdrop. exists (mk_heading H1 ecole_title 1).
    split; [apply list_elem_of_singleton; reflexivity|].
    split; [reflexivity|]. split; [vm_compute; reflexivity | reflexivity].
  - apply Hkeep. intros h' Hh'. apply list_elem_of_singleton in Hh'. subst h'.
    right. right. simpl. lia.
  - apply Hkeep. intros h' Hh'. apply list_elem_of_singleton in Hh'. subst h'.
    left. simpl. discriminate.
Defined.

(** ** The page loop, one page at a time *)

(** A loop that only appends adds, for each item, what it adds to nothing. *)
Lemma fold_left_appends {A B : Type} (f : list B → A → list B) (l : list A) acc :
  (∀ acc x, f acc x = acc ++ f [] x) →
  fold_left f l acc = acc ++ flat_map (f []) l.
Proof.
  intros Hf. revert acc. induction l as [|x l IH]; intros acc; simpl.
  - by rewrite app_nil_r.
  - by rewrite IH, (Hf acc x), <- app_assoc.
Qed.

Lemma image_step_appends `{Runtime} doc max_size n acc img :
  image_step doc max_size n acc img = acc ++ image_step doc max_size n [] img.
Proof.
  unfold image_step.
  destruct (extract_image doc (xref img)) as [e|[[|b bs]|]];
    rewrite ?app_nil_r; try done.
  destruct (_make_image_preview _ _); by rewrite ?app_nil_r.
Qed.

Lemma link_step_appends n acc link :
  link_step n acc link = acc ++ link_step n [] link.
Proof.
  unfold link_step. destruct (link_uri link) as [[|c u]|]; by rewrite ?app_nil_r.
Qed.

Lemma line_step_appends opts n acc line :
  line_step opts n acc line = acc ++ line_step opts n [] line.
Proof.
  unfold line_step.
  destruct (line_spans line) as [|sp spans]; [by rewrite app_nil_r|].
  destruct (line_text (sp :: spans)); [by rewrite app_nil_r|].
  destruct (classify _ _ _ _); by rewrite ?app_nil_r.
Qed.

Lemma block_step_appends opts n acc block :
  block_step opts n acc block = acc ++ block_headings opts n block.
Proof.
  unfold block_step, block_headings.
  destruct (block_lines block) as [lines|]; [|by rewrite app_nil_r].
  apply fold_left_appends. intros. apply line_step_appends.
Qed.

Lemma block_step_nil opts n block :
  block_step opts n [] block = block_headings opts n block.
Proof. by rewrite block_step_appends. Qed.

Lemma scan_headings_spec opts n pg st :
  scan_headings opts n pg st
  = set_headings st (st_headings st ++ page_headings opts n pg).
Proof.
  unfold scan_headings, page_headings.
  destruct (get_text_blocks pg) as [e|blocks].
  - rewrite app_nil_r. by destruct st.
  - f_equal. rewrite fold_left_appends.
    + f_equal. apply flat_map_ext. intros. apply block_step_nil.
    + intros acc b. by rewrite block_step_appends, block_step_nil.
Qed.

Lemma scan_links_spec n pg st :
  scan_links n pg st = set_links st (st_links st ++ page_links n pg).
Proof.
  unfold scan_links, page_links.
  destruct (get_links pg) as [e|ls].
  - rewrite app_nil_r. by destruct st.
  - f_equal. apply fold_left_appends. intros. apply link_step_appends.
Qed.

Lemma scan_images_previews `{Runtime} doc opts n pg st :
  st_image_previews (scan_images doc opts n pg st)
  = st_image_previews st ++ page_previews doc opts n pg.
Proof.
  unfold scan_images, page_previews.
  destruct (get_images pg) as [e|[|img images]]; simpl; rewrite ?app_nil_r; try done.
  - unfold imgs_to_process. destruct (detect_first_image_only opts); by rewrite ?app_nil_r.
  - apply fold_left_appends. intros. apply image_step_appends.
Qed.

Lemma scan_images_pages `{Runtime} doc opts n pg st :
  st_pages_with_images (scan_images doc opts n pg st)
  = page_image_set n pg ∪ st_pages_with_images st.
Proof.
  unfold scan_images, page_image_set.
  destruct (get_images pg) as [e|[|img images]]; simpl; try done.
  - by rewrite (left_id_L ∅ (∪)).
  - by rewrite (left_id_L ∅ (∪)).
Qed.

Lemma scan_images_others `{Runtime} doc opts n pg st :
  st_headings (scan_images doc opts n pg st) = st_headings st ∧
  st_links (scan_images doc opts n pg st) = st_links st.
Proof.
  unfold scan_images. by destruct (get_images pg) as [e|[|img images]].
Qed.

Lemma page_step_headings `{Runtime} doc opts st n pg :
  st_headings (page_step doc opts st (n, pg))
  = st_headings st ++ page_headings opts n pg.
Proof.
  unfold page_step. rewrite scan_headings_spec, scan_links_spec. simpl.
  by rewrite (proj1 (scan_images_others _ _ _ _ _)).
Qed.

Lemma page_step_links `{Runtime} doc opts st n pg :
  st_links (page_step doc opts st (n, pg)) = st_links st ++ page_links n pg.
Proof.
  unfold page_step. rewrite scan_headings_spec, scan_links_spec. simpl.
  by rewrite (proj2 (scan_images_others _ _ _ _ _)).
Qed.

Lemma page_step_previews `{Runtime} doc opts st n pg :
  st_image_previews (page_step doc opts st (n, pg))
  = st_image_previews st ++ page_previews doc opts n pg.
Proof.
  unfold page_step. rewrite scan_headings_spec, scan_links_spec. simpl.
  apply scan_images_previews.
Qed.

Lemma page_step_pages `{Runtime} doc opts st n pg :
  st_pages_with_images (page_step doc opts st (n, pg))
  = page_image_set n pg ∪ st_pages_with_images st.
Proof.
  unfold page_step. rewrite scan_headings_spec, scan_links_spec. simpl.
  apply scan_images_pages.
Qed.

(** The state after the loop over numbered pages. *)
Lemma run_pages_spec `{Runtime} doc opts nps st :
  let st' := fold_left (page_step doc opts) nps st in
  st_headings st' = st_headings st ++ flat_map (fun np => page_headings opts np.1 np.2) nps ∧
  st_links st' = st_links st ++ flat_map (fun np => page_links np.1 np.2) nps ∧
  st_image_previews st'
  = st_image_previews st ++ flat_map (fun np => page_previews doc opts np.1 np.2) nps ∧
  ∀ n, n ∈ st_pages_with_images st' ↔
       n ∈ st_pages_with_images st ∨ ∃ np, np ∈ nps ∧ n ∈ page_image_set np.1 np.2.
Proof.
  revert st.
  induction nps as [|[k pg] nps IH]; intros st; cbv zeta; cbn [fold_left flat_map].
  - rewrite !app_nil_r. repeat split; try done.
    + by left.
    + intros [?|(np & Hnp & _)]; [done | by apply elem_of_nil in Hnp].
  - specialize (IH (page_step doc opts st (k, pg))). cbv zeta in IH.
    destruct IH as (Hh & Hl & Hp & Hs).
    rewrite Hh, Hl, Hp, page_step_headings, page_step_links, page_step_previews.
    rewrite <- !app_assoc. repeat split; try done.
    + intros Hn. apply Hs in Hn as [Hn|(np & Hnp & Hn)].
      * rewrite page_step_pages, elem_of_union in Hn. destruct Hn as [Hn|Hn].
        -- right. exists (k, pg). split; [apply elem_of_cons; by left | done].
        -- by left.
      * right. exists np. split; [apply elem_of_cons; by right | done].
    + intros Hn. apply Hs. rewrite page_step_pages, elem_of_union.
      destruct Hn as [Hn|(np & Hnp & Hn)]; [by left; right|].
      apply elem_of_cons in Hnp as [->|Hnp]; [by left; left|].
      right. by exists np.
Qed.

(** The numbered pages are the pages at their numbers. *)
Lemma elem_of_enumerate {A : Type} (l : list A) (start n : Z) (x : A) :
  (n, x) ∈ enumerate start l ↔ start ≤ n ∧ l !! Z.to_nat (n - start) = Some x.
Proof.
  revert start. induction l as [|y l IH]; intros start; simpl.
  - split; [intros Hin; by apply elem_of_nil in Hin | by intros [_ ?]].
  - rewrite elem_of_cons, IH. split.
    + intros [Heq|[Hle Hl]].
      * injection Heq as -> ->. split; [lia|]. by replace (start - start) with 0 by lia.
      * split; [lia|].
        replace (Z.to_nat (n - start)) with (S (Z.to_nat (n - (start + 1)))) by lia.
        done.
    + intros [Hle Hl]. destruct (decide (n = start)) as [->|Hne].
      * left. replace (start - start) with 0 in Hl by lia. simpl in Hl. congruence.
      * right. split; [lia|].
        replace (Z.to_nat (n - start)) with (S (Z.to_nat (n - (start + 1)))) in Hl by lia.
        done.
Qed.

Lemma elem_of_enumerate_pages (pages : list Page) n pg :
  (n, pg) ∈ enumerate 1 pages ↔ page_at pages n = Some pg.
Proof.
  rewrite elem_of_enumerate. unfold page_at.
  destruct (Z.leb_spec 1 n); [tauto|].
  split; [lia | done].
Qed.

(** The page loop loads the pages one after the other and stops at the first
    that does not load. *)
Lemma run_pages_loaded `{Runtime} doc opts k (l : list (outcome Page)) st :
  run_pages doc opts k l st
  = match load_pages l with
    | Raises e => Raises e
    | Returns pages =>
        Returns (fold_left (page_step doc opts) (enumerate k pages) st)
    end.
Proof.
  revert k st. induction l as [|[e|pg] l IH]; intros k st; simpl; [done | done |].
  rewrite IH. by destruct (load_pages l).
Qed.

(** What [extract_outline] returns for a document that opens and whose
    metadata and pages can be read. *)
Lemma extract_outline_returns `{Runtime} source opts doc meta_title pages :
  open_source source = Returns doc →
  metadata_title doc = Returns meta_title →
  load_pages (doc_pages doc) = Returns pages →
  ∃ image_pages,
    extract_outline source opts
    = Returns (resolve_title meta_title,
               dedup_headings (all_headings opts pages),
               {| pages_with_images := sorted image_pages;
                  links := all_links pages;
                  image_previews := all_previews doc opts pages |}) ∧
    ∀ n, n ∈ image_pages ↔ ∃ pg, page_at pages n = Some pg ∧ has_image_ref pg.
Proof.
  intros Hopen Hmeta Hload. unfold extract_outline.
  rewrite Hopen. simpl. rewrite Hmeta. simpl.
  rewrite run_pages_loaded, Hload. simpl.
  pose proof (run_pages_spec doc opts (enumerate 1 pages) init_state)
    as Hrun. cbv zeta in Hrun. destruct Hrun as (Hh & Hl & Hp & Hs). simpl in *.
  eexists. split.
  - rewrite Hh, Hl, Hp. reflexivity.
  - intros n. rewrite Hs. split.
    + intros [Hn|([k pg] & Hnp & Hn)]; [by apply not_elem_of_empty in Hn|].
      simpl in Hn. unfold page_image_set in Hn.
      destruct (get_images pg) as [e|[|img images]] eqn:Himgs;
        try (by apply not_elem_of_empty in Hn).
      apply elem_of_singleton in Hn as ->.
      exists pg. split; [by apply elem_of_enumerate_pages|].
      by exists (img :: images).
    + intros (pg & Hpg & images & Himgs & Hne). right.
      exists (n, pg). split; [by apply elem_of_enumerate_pages|].
      simpl. unfold page_image_set. rewrite Himgs.
      destruct images; [done | by apply elem_of_singleton].
Qed.

(** ** C3: the pages with images *)

Lemma StronglySorted_le_lt (l : list Z) :
  StronglySorted Z.le l → NoDup l → StronglySorted Z.lt l.
Proof.
  induction 1 as [|x l Hl IH Hx]; intros Hnd; [constructor|].
  apply NoDup_cons in Hnd as [Hxl Hnd].
  constructor; [by apply IH|].
  rewrite Forall_forall in Hx |- *. intros y Hy.
  assert (x ≠ y) by (intros ->; by apply Hxl, list_elem_of_In).
  specialize (Hx y Hy). lia.
Qed.

(** Sorting a set yields its members in strictly ascending order, whatever
    the order in which the set hands them out. *)
Lemma sorted_spec (s : gset Z) :
  StronglySorted Z.lt (sorted s) ∧
  NoDup (sorted s) ∧
  (∀ n, n ∈ sorted s ↔ n ∈ s) ∧
  (∀ l, l ≡ₚ elements s → merge_sort Z.le l = sorted s).
Proof.
  unfold sorted.
  assert (Hperm : merge_sort Z.le (elements s) ≡ₚ elements s)
    by apply merge_sort_Permutation.
  assert (Hnd : NoDup (merge_sort Z.le (elements s)))
    by (rewrite Hperm; apply NoDup_elements).
  assert (Hsorted : ∀ l, Sorted Z.le (merge_sort Z.le l))
    by (intros l; apply (Sorted_merge_sort Z.le)).
  repeat split.
  - apply StronglySorted_le_lt; [|done].
    apply Sorted_StronglySorted; [apply _ | apply Hsorted].
  - done.
  - rewrite Hperm. apply elem_of_elements.
  - rewrite Hperm. apply elem_of_elements.
  - intros l Hl. apply (Sorted_unique Z.le); [apply Hsorted | apply Hsorted |].
    by rewrite !merge_sort_Permutation.
Qed.

(** C3. For every document that is read, [pages_with_images] of the returned
    metadata is strictly ascending, has no repeated value, and holds a page
    number exactly when the page at that number lists at least one image
    reference; the options (among them [detect_first_image_only]) and the
    runtime (which decides whether a preview can be made) are arbitrary, and
    sorting the same page numbers met in any other order gives the same
    sequence. *)
Theorem pages_with_images_sorted `{Runtime} (source : Source) (opts : Options)
    (doc : Document) (meta_title : option pystr) (pages : list Page) :
  open_source source = Returns doc →
  metadata_title doc = Returns meta_title →
  load_pages (doc_pages doc) = Returns pages →
  ∃ title headings md,
    extract_outline source opts = Returns (title, headings, md) ∧
    StronglySorted Z.lt (pages_with_images md) ∧
    NoDup (pages_with_images md) ∧
    (∀ n, n ∈ pages_with_images md ↔
          ∃ pg, page_at pages n = Some pg ∧ has_image_ref pg) ∧
    (∀ l, l ≡ₚ pages_with_images md → merge_sort Z.le l = pages_with_images md).
Proof.
  intros Hopen Hmeta Hload.
  destruct (extract_outline_returns source opts doc _ _ Hopen Hmeta Hload)
    as (image_pages & Hret & Hpages).
  destruct (sorted_spec image_pages) as (Hsorted & Hnd & Hmem & Horder).
  do 3 eexists. split; [exact Hret|]. simpl.
  repeat split; try done.
  - intros Hn. by apply Hpages, Hmem.
  - intros Hn. by apply Hmem, Hpages.
  - intros l Hl. apply Horder. rewrite Hl. apply merge_sort_Permutation.
Qed.

Lemma pages_with_images_sorted_witness :
  ∃ title headings md,
    @extract_outline (sample_runtime sample_doc) sample_source all_images_options
    = Returns (title, headings, md) ∧
    StronglySorted Z.lt (pages_with_images md) ∧
    NoDup (pages_with_images md) ∧
    (∀ n, n ∈ pages_with_images md ↔
          ∃ pg, page_at sample_pages n = Some pg ∧ has_image_ref pg) ∧
    (∀ l, l ≡ₚ pages_with_images md → merge_sort Z.le l = pages_with_images md).
Proof.
  apply (@pages_with_images_sorted (sample_runtime sample_doc) sample_source
           all_images_options sample_doc None sample_pages); reflexivity.
Defined.

(** ** C8: previews per page *)

Lemma preview_attempt_spec `{Runtime} doc max_size n img :
  (List.length (preview_attempt doc max_size n img) ≤ 1)%nat ∧
  Forall (fun p => preview_page p = n) (preview_attempt doc max_size n img).
Proof.
  unfold preview_attempt, image_step.
  destruct (extract_image doc (xref img)) as [e|[[|b bs]|]]; simpl; auto.
  destruct (_make_image_preview _ _); simpl; auto.
Qed.

Lemma page_previews_page `{Runtime} doc opts n pg :
  Forall (fun p => preview_page p = n) (page_previews doc opts n pg).
Proof.
  unfold page_previews. destruct (get_images pg) as [e|images]; [constructor|].
  induction (imgs_to_process _ images) as [|img l IH]; simpl; [constructor|].
  apply Forall_app. split; [apply preview_attempt_spec | apply IH].
Qed.

Lemma previews_of_page_same n ps :
  Forall (fun p => preview_page p = n) ps → previews_of_page n ps = ps.
Proof.
  unfold previews_of_page. induction 1 as [|p ps Hp _ IH]; simpl; [done|].
  rewrite IH. by rewrite (proj2 (Z.eqb_eq _ _) Hp).
Qed.

Lemma previews_of_page_other n k ps :
  k ≠ n → Forall (fun p => preview_page p = k) ps → previews_of_page n ps = [].
Proof.
  unfold previews_of_page. intros Hne. induction 1 as [|p ps Hp _ IH]; simpl; [done|].
  rewrite IH. destruct (Z.eqb_spec (preview_page p) n); [congruence | done].
Qed.

(** The previews filed under page [n] are those the page numbered [n] added. *)
Lemma previews_of_page_enumerate `{Runtime} doc opts n k (pages : list Page) :
  previews_of_page n
    (flat_map (fun np => page_previews doc opts np.1 np.2) (enumerate k pages))
  = if k <=? n
    then match pages !! Z.to_nat (n - k) with
         | Some pg => page_previews doc opts n pg
         | None => []
         end
    else [].
Proof.
  revert k. induction pages as [|pg pages IH]; intros k; simpl.
  - by destruct (k <=? n).
  - unfold previews_of_page in *. rewrite List.filter_app, IH.
    fold (previews_of_page n (page_previews doc opts k pg)).
    destruct (Z.leb_spec k n) as [Hle|Hgt].
    + destruct (decide (k = n)) as [->|Hne].
      * rewrite previews_of_page_same by apply page_previews_page.
        replace (n - n) with 0 by lia. simpl.
        destruct (Z.leb_spec (n + 1) n); [lia | by rewrite app_nil_r].
      * rewrite (previews_of_page_other n k) by (done || apply page_previews_page).
        destruct (Z.leb_spec (k + 1) n); [|lia]. simpl.
        by replace (Z.to_nat (n - k)) with (S (Z.to_nat (n - (k + 1)))) by lia.
    + rewrite (previews_of_page_other n k) by (lia || apply page_previews_page).
      by destruct (Z.leb_spec (k + 1) n); [lia|].
Qed.

Lemma previews_of_page_all `{Runtime} doc opts (pages : list Page) n :
  previews_of_page n (all_previews doc opts pages)
  = match page_at pages n with
    | Some pg => page_previews doc opts n pg
    | None => []
    end.
Proof.
  unfold all_previews, page_at. rewrite previews_of_page_enumerate.
  by destruct (1 <=? n).
Qed.

(** What an attempt yields: the entry of the preview, filed under the page,
    when the image data are extracted, non-empty and decoded; nothing
    otherwise. *)
Lemma preview_attempt_outcome `{Runtime} doc max_size n img :
  preview_attempt doc max_size n img
  = match extract_image doc (xref img) with
    | Returns (Some (b :: bs)) =>
        match _make_image_preview (b :: bs) max_size with
        | Returns p => [{| preview_page := n; preview := p |}]
        | Raises _ => []
        end
    | _ => []
    end.
Proof.
  unfold preview_attempt, image_step.
  destruct (extract_image doc (xref img)) as [e|[[|b bs]|]]; try done;
    by destruct (_make_image_preview _ _).
Qed.

Lemma flat_map_singletons {A B : Type} (f : A → list B) (l : list A) :
  Forall (λ x, ∃ y, f x = [y]) l → List.length (flat_map f l) = List.length l.
Proof.
  induction 1 as [|x l [y Hy] _ IH]; simpl; [done|].
  by rewrite Hy, <- IH.
Qed.

(** C8. [detect_first_image_only] defaults to true. An attempt on an image
    reference files one entry under the page, the data URI of the preview,
    when the image data are extracted, non-empty and decoded, and nothing
    otherwise; it depends on its own reference only. When the flag is true,
    the entries of a page are the outcome of the attempt on its first image
    reference, so there is at most one, and exactly one when that attempt
    succeeds; when the flag is false, they are the outcomes of one attempt
    per image reference, in order, so there are as many entries as
    references when every attempt succeeds. *)
Theorem previews_per_page `{Runtime} (source : Source) (opts : Options)
    (doc : Document) (meta_title : option pystr) (pages : list Page) :
  open_source source = Returns doc →
  metadata_title doc = Returns meta_title →
  load_pages (doc_pages doc) = Returns pages →
  detect_first_image_only default_options = true ∧
  ∃ title headings md,
    extract_outline source opts = Returns (title, headings, md) ∧
    let attempt n := preview_attempt doc (image_preview_max_size opts) n in
    (∀ n img, (List.length (attempt n img) ≤ 1)%nat) ∧
    (detect_first_image_only opts = true →
     ∀ n, (List.length (previews_of_page n (image_previews md)) ≤ 1)%nat ∧
          ∀ pg images, page_at pages n = Some pg → get_images pg = Returns images →
            previews_of_page n (image_previews md)
            = flat_map (attempt n) (take 1 images)) ∧
    (detect_first_image_only opts = false →
     ∀ n pg images, page_at pages n = Some pg → get_images pg = Returns images →
       previews_of_page n (image_previews md) = flat_map (attempt n) images) ∧
    (∀ n img,
       attempt n img
       = match extract_image doc (xref img) with
         | Returns (Some (b :: bs)) =>
             match _make_image_preview (b :: bs) (image_preview_max_size opts) with
             | Returns p => [{| preview_page := n; preview := p |}]
             | Raises _ => []
             end
         | _ => []
         end) ∧
    (∀ n img data p,
       extract_image doc (xref img) = Returns (Some data) → data ≠ [] →
       _make_image_preview data (image_preview_max_size opts) = Returns p →
       attempt n img = [{| preview_page := n; preview := p |}] ∧
       ∃ raster buf,
         Image_open data = Returns raster ∧
         p = data_uri_prefix ++ b64encode buf) ∧
    (detect_first_image_only opts = true →
     ∀ n pg img images data p,
       page_at pages n = Some pg → get_images pg = Returns (img :: images) →
       extract_image doc (xref img) = Returns (Some data) → data ≠ [] →
       _make_image_preview data (image_preview_max_size opts) = Returns p →
       previews_of_page n (image_previews md)
       = [{| preview_page := n; preview := p |}]) ∧
    (detect_first_image_only opts = false →
     ∀ n pg images, page_at pages n = Some pg → get_images pg = Returns images →
       Forall (λ img, ∃ data p,
                 extract_image doc (xref img) = Returns (Some data) ∧ data ≠ [] ∧
                 _make_image_preview data (image_preview_max_size opts) = Returns p)
              images →
       List.length (previews_of_page n (image_previews md)) = List.length images ∧
       previews_of_page n (image_previews md)
       = flat_map
           (λ img,
              match extract_image doc (xref img) with
              | Returns (Some data) =>
                  match _make_image_preview data (image_preview_max_size opts) with
                  | Returns p => [{| preview_page := n; preview := p |}]
                  | Raises _ => []
                  end
              | _ => []
              end)
           images).
Proof.
  intros Hopen Hmeta Hload. split; [done|].
  destruct (extract_outline_returns source opts doc _ _ Hopen Hmeta Hload)
    as (image_pages & Hret & _).
  do 3 eexists. split; [exact Hret|]. cbv zeta. simpl.
  assert (Hok : ∀ n img data p,
    extract_image doc (xref img) = Returns (Some data) → data ≠ [] →
    _make_image_preview data (image_preview_max_size opts) = Returns p →
    preview_attempt doc (image_preview_max_size opts) n img
    = [{| preview_page := n; preview := p |}]).
  { intros n img data p Hdata Hne Hp. rewrite preview_attempt_outcome, Hdata.
    destruct data as [|b bs]; [done|]. by rewrite Hp. }
  split; [intros; apply preview_attempt_spec|].
  split.
  { intros Hflag n. rewrite previews_of_page_all. split.
    - destruct (page_at pages n) as [pg|]; simpl; [|lia].
      unfold page_previews. destruct (get_images pg) as [e|images]; simpl; [lia|].
      rewrite Hflag. destruct images as [|img images]; simpl; [lia|].
      rewrite app_nil_r. apply preview_attempt_spec.
    - intros pg images -> Himgs. unfold page_previews. by rewrite Himgs, Hflag. }
  split.
  { intros Hflag n pg images Hpg Himgs. rewrite previews_of_page_all, Hpg.
    unfold page_previews. by rewrite Himgs, Hflag. }
  split; [intros; apply preview_attempt_outcome|].
  split.
  { intros n img data p Hdata Hne Hp. split; [exact (Hok _ _ _ _ Hdata Hne Hp)|].
    unfold _make_image_preview in Hp.
    destruct (Image_open data) as [e|r0] eqn:Hopen'; [done|]. simpl in Hp.
    destruct (Image_convert_RGB r0) as [e|r1]; [done|]. simpl in Hp.
    destruct (Image_thumbnail r1 _) as [e|r2]; [done|]. simpl in Hp.
    destruct (Image_save_PNG r2) as [e|buf]; [done|]. simpl in Hp.
    injection Hp as <-. by exists r0, buf. }
  split.
  { intros Hflag n pg img images data p Hpg Himgs Hdata Hne Hp.
    rewrite previews_of_page_all, Hpg. unfold page_previews.
    rewrite Himgs, Hflag. simpl. rewrite app_nil_r.
    exact (Hok _ _ _ _ Hdata Hne Hp). }
  intros Hflag n pg images Hpg Himgs Hall.
  rewrite previews_of_page_all, Hpg. unfold page_previews.
  rewrite Himgs, Hflag. simpl. split.
  - apply flat_map_singletons. eapply Forall_impl; [exact Hall|].
    intros img (data & p & Hdata & Hne & Hp). eexists. exact (Hok _ _ _ _ Hdata Hne Hp).
  - clear Himgs. induction Hall as [|img images (data & p & Hdata & Hne & Hp) _ IH];
      simpl; [done|].
    rewrite IH. f_equal. rewrite (Hok _ _ _ _ Hdata Hne Hp). by rewrite Hdata, Hp.
Qed.

(** On a page with two images that decode, the default mode files the first
    preview only, and the mode with the flag off files both, in order. *)
Lemma previews_per_page_witness :
  (∃ title headings md,
     @extract_outline (sample_runtime two_images_doc) sample_source default_options
     = Returns (title, headings, md) ∧
     previews_of_page 1 (image_previews md)
     = [{| preview_page := 1; preview := data_uri_prefix ++ [137; 80]%N |}]) ∧
  (∃ title headings md,
     @extract_outline (sample_runtime two_images_doc) sample_source all_images_options
     = Returns (title, headings, md) ∧
     List.length (previews_of_page 1 (image_previews md)) = 2%nat ∧
     previews_of_page 1 (image_previews md)
     = [{| preview_page := 1; preview := data_uri_prefix ++ [137; 80]%N |};
        {| preview_page := 1; preview := data_uri_prefix ++ [255; 216]%N |}]).
Proof.
  split.
  - destruct (@previews_per_page (sample_runtime two_images_doc) sample_source
                default_options two_images_doc None two_images_pages
                eq_refl eq_refl eq_refl)
      as (_ & title & headings & md & Hret & _ & _ & _ & _ & _ & Hfirst & _).
    exists title, headings, md. split; [exact Hret|].
    apply (Hfirst eq_refl 1 _ {| xref := 7 |} [{| xref := 9 |}]
             [Byte.x89; Byte.x50] _ eq_refl eq_refl eq_refl);
      [discriminate | reflexivity].
  - destruct (@previews_per_page (sample_runtime two_images_doc) sample_source
                all_images_options two_images_doc None two_images_pages
                eq_refl eq_refl eq_refl)
      as (_ & title & headings & md & Hret & _ & _ & _ & _ & _ & _ & Hall).
    exists title, headings, md. split; [exact Hret|].
    apply (Hall eq_refl 1 _ [{| xref := 7 |}; {| xref := 9 |}] eq_refl eq_refl).
    apply List.Forall_cons.
    + exists [Byte.x89; Byte.x50], (data_uri_prefix ++ [137; 80]%N).
      split; [reflexivity|]. split; [discriminate | reflexivity].
    + apply List.Forall_cons; [|apply List.Forall_nil].
      exists [Byte.xff; Byte.xd8], (data_uri_prefix ++ [255; 216]%N).
      split; [reflexivity|]. split; [discriminate | reflexivity].
Defined.

(** ** Strings: trimming, splitting and joining *)

Lemma lstrip_app_blank a b : lstrip a = [] → lstrip (a ++ b) = lstrip b.
Proof.
  induction a as [|c a IH]; simpl; [done|].
  destruct (is_space c); [exact IH | done].
Qed.

Lemma lstrip_app_keep a b : lstrip a ≠ [] → lstrip (a ++ b) = lstrip a ++ b.
Proof.
  induction a as [|c a IH]; simpl; [done|].
  destruct (is_space c); [exact IH | done].
Qed.

Lemma lstrip_starts_clean s : starts_clean (lstrip s).
Proof.
  induction s as [|c s IH]; simpl; [done|].
  destruct (is_space c) eqn:Hc; [exact IH | exact Hc].
Qed.

Lemma lstrip_clean s : starts_clean s → lstrip s = s.
Proof. destruct s as [|c s]; simpl; [done|]. by intros ->. Qed.

Lemma lstrip_idemp s : lstrip (lstrip s) = lstrip s.
Proof. apply lstrip_clean, lstrip_starts_clean. Qed.

Lemma rstrip_idemp s : rstrip (rstrip s) = rstrip s.
Proof. unfold rstrip. by rewrite rev_involutive, lstrip_idemp. Qed.

Lemma rev_eq_nil {A : Type} (l : list A) : rev l = [] → l = [].
Proof. intros Hl. apply (f_equal (@rev A)) in Hl. by rewrite rev_involutive in Hl. Qed.

Lemma rstrip_app_blank x y : rstrip y = [] → rstrip (x ++ y) = rstrip x.
Proof.
  unfold rstrip. intros Hy. apply rev_eq_nil in Hy.
  by rewrite rev_app_distr, lstrip_app_blank.
Qed.

Lemma rstrip_app_keep x y : rstrip y ≠ [] → rstrip (x ++ y) = x ++ rstrip y.
Proof.
  unfold rstrip. intros Hy.
  rewrite rev_app_distr, lstrip_app_keep, rev_app_distr, rev_involutive; [done|].
  intros Hnil. apply Hy. by rewrite Hnil.
Qed.

Lemma rstrip_single c : rstrip [c] = if is_space c then [] else [c].
Proof. unfold rstrip. simpl. by destruct (is_space c). Qed.

Lemma rstrip_cons_clean c y : is_space c = false → rstrip (c :: y) ≠ [].
Proof.
  intros Hc. change (c :: y) with ([c] ++ y).
  destruct (decide (rstrip y = [])) as [Hy|Hy].
  - rewrite rstrip_app_blank, rstrip_single, Hc; done.
  - by rewrite rstrip_app_keep.
Qed.

Lemma rstrip_cons_clean_head c y :
  is_space c = false → ∃ r, rstrip (c :: y) = c :: r.
Proof.
  intros Hc. change (c :: y) with ([c] ++ y).
  destruct (decide (rstrip y = [])) as [Hy|Hy].
  - rewrite rstrip_app_blank, rstrip_single, Hc by done. by exists [].
  - rewrite rstrip_app_keep by done. by exists (rstrip y).
Qed.

Lemma rstrip_no_space w : no_space w → rstrip w = w.
Proof.
  induction 1 as [|c w Hc Hw IH]; [done|].
  change (c :: w) with ([c] ++ w).
  destruct (decide (rstrip w = [])) as [Hy|Hy].
  - rewrite rstrip_app_blank, rstrip_single, Hc by done. rewrite <- IH, Hy. done.
  - by rewrite rstrip_app_keep, IH.
Qed.

Lemma rstrip_snoc_space w : no_space w → rstrip (w ++ [space]) = w.
Proof.
  intros Hw. rewrite rstrip_app_blank by done. by apply rstrip_no_space.
Qed.

(** Trimming what is trimmed changes nothing. *)
Lemma strip_idemp s : strip (strip s) = strip s.
Proof.
  unfold strip.
  assert (Hl : lstrip (rstrip (lstrip s)) = rstrip (lstrip s)).
  { apply lstrip_clean. pose proof (lstrip_starts_clean s) as Hs.
    destruct (lstrip s) as [|c y]; [done|].
    destruct (rstrip_cons_clean_head c y Hs) as [r ->]. exact Hs. }
  by rewrite Hl, rstrip_idemp.
Qed.

Lemma split_go_lstrip s : split_go [] (lstrip s) = split_go [] s.
Proof.
  induction s as [|c s IH]; simpl; [done|].
  destruct (is_space c) eqn:Hc; [exact IH|]. simpl. by rewrite Hc.
Qed.

Lemma split_go_nonempty w s : w ≠ [] → split_go w s ≠ [].
Proof.
  revert w. induction s as [|c s IH]; intros w Hw; simpl.
  - by destruct w.
  - destruct (is_space c); [by destruct w|].
    apply IH. by destruct w.
Qed.

Lemma join_cons sep w ws : ws ≠ [] → join sep (w :: ws) = w ++ sep ++ join sep ws.
Proof. by destruct ws. Qed.

Lemma collapse_lstrip b s :
  lstrip (collapse_runs b s) = collapse_runs false (lstrip s).
Proof.
  revert b. induction s as [|c s IH]; intros b; simpl; [done|].
  destruct (is_space c) eqn:Hc.
  - destruct b; simpl; [apply IH|]. apply IH.
  - simpl. by rewrite Hc.
Qed.

(** The collapsed string, trimmed on the right, is the words joined by
    single spaces. [w] is a word being read. *)
Lemma collapse_split s : ∀ w, no_space w →
  ((w ≠ [] ∨ starts_clean s) →
   rstrip (w ++ collapse_runs false s) = join [space] (split_go w s)) ∧
  rstrip (collapse_runs true s) = join [space] (split_go [] s) ∧
  (w ≠ [] →
   rstrip (w ++ space :: collapse_runs true s) = join [space] (w :: split_go [] s)).
Proof.
  induction s as [|c s IH]; intros w Hw.
  - simpl. repeat split.
    + intros _. rewrite app_nil_r, rstrip_no_space by done. by destruct w.
    + intros _. by apply rstrip_snoc_space.
  - destruct (is_space c) eqn:Hc.
    + destruct (IH w Hw) as (_ & IHrun & IHsep). simpl. rewrite Hc.
      repeat split; [|done|done].
      intros [Hne|Hclean]; [|simpl in Hclean; congruence].
      rewrite IHsep by done. by destruct w.
    + assert (Hwc : no_space (w ++ [c])) by (apply Forall_app; split; [done | by constructor]).
      assert (Hc1 : no_space [c]) by (by constructor).
      destruct (IH (w ++ [c]) Hwc) as (IHw & _ & _).
      destruct (IH [c] Hc1) as (IHc & _ & _).
      cbn [collapse_runs split_go app]. rewrite Hc. repeat split.
      * intros _. rewrite <- IHw by (left; by destruct w).
        by rewrite <- app_assoc.
      * change (c :: collapse_runs false s) with ([c] ++ collapse_runs false s).
        by rewrite IHc by (by left).
      * intros Hne.
        change (w ++ space :: c :: collapse_runs false s)
          with (w ++ [space] ++ ([c] ++ collapse_runs false s)).
        rewrite app_assoc, rstrip_app_keep by (by apply rstrip_cons_clean).
        rewrite IHc by (by left).
        rewrite join_cons by (by apply split_go_nonempty).
        by rewrite <- app_assoc.
Qed.

Lemma normalize_spec_words s : normalize_spec s = join [space] (split s).
Proof.
  unfold normalize_spec, strip, split.
  rewrite collapse_lstrip, <- split_go_lstrip.
  assert (Hnil : no_space []) by constructor.
  destruct (collapse_split (lstrip s) [] Hnil) as (Hw & _ & _).
  apply Hw. right. apply lstrip_starts_clean.
Qed.

(** [_normalize_text] does what the specification says: it collapses every
    whitespace run to one space and trims both ends. *)
Lemma normalize_text_refines s : _normalize_text s = normalize_spec s.
Proof.
  unfold _normalize_text. rewrite <- normalize_spec_words.
  unfold normalize_spec. apply strip_idemp.
Qed.

(** ** C5: the text of a line *)

Lemma line_headings_spec opts n line :
  line_headings opts n line
  = match line_spans line with
    | [] => []
    | spans =>
        match line_text spans with
        | [] => []
        | txt =>
            match classify (line_max_font spans)
                    (min_h1 opts) (min_h2 opts) (min_h3 opts) with
            | Some lv => [{| level := lv;
                             text := _normalize_text txt;
                             page := n;
                             font_size := round2 (line_max_font spans) |}]
            | None => []
            end
        end
    end.
Proof.
  unfold line_headings, line_step.
  destruct (line_spans line) as [|sp spans]; [done|].
  destruct (line_text (sp :: spans)); [done|].
  by destruct (classify _ _ _ _).
Qed.

(** The span texts ["Chap"] and ["ter"] make the run text ["Chap ter"], not
    their concatenation ["Chapter"], and that is the text of the heading. *)
Lemma run_text_inserts_spaces :
  line_text [mk_span "Chap" 20; mk_span "ter" 20] = py "Chap ter" ∧
  List.concat (List.map span_text_or_empty [mk_span "Chap" 20; mk_span "ter" 20])
  = py "Chapter" ∧
  line_text [mk_span "Chap" 20; mk_span "ter" 20]
  ≠ List.concat (List.map span_text_or_empty [mk_span "Chap" 20; mk_span "ter" 20]) ∧
  @extract_outline (sample_runtime split_word_doc) sample_source default_options
  = Returns (py "Untitled",
             [{| level := H1; text := py "Chap ter"; page := 1;
                 font_size := Num (2000 # 100) |}],
             {| pages_with_images := []; links := []; image_previews := [] |}).
Proof. repeat split; try (vm_compute; reflexivity). vm_compute. discriminate. Qed.

(** C5, amended. For every text line, the run text is the span texts joined
    in span order with one space between consecutive spans, trimmed; a line
    whose run text is empty produces nothing; and the text stored in a
    heading is the run text with every whitespace run collapsed to a single
    space and leading and trailing whitespace removed. *)
Theorem line_text_joined_and_normalized (opts : Options) (n : Z)
    (acc : list Heading) (line : Line) :
  line_text (line_spans line)
  = strip (join [space] (List.map span_text_or_empty (line_spans line))) ∧
  (∀ sp spans, spans ≠ [] →
     join [space] (List.map span_text_or_empty (sp :: spans))
     = span_text_or_empty sp ++ [space]
       ++ join [space] (List.map span_text_or_empty spans)) ∧
  (line_text (line_spans line) = [] → line_step opts n acc line = acc) ∧
  (line_step opts n acc line = acc ∨
   ∃ lv, line_step opts n acc line
         = acc ++ [{| level := lv;
                      text := normalize_spec (line_text (line_spans line));
                      page := n;
                      font_size := round2 (line_max_font (line_spans line)) |}]).
Proof.
  split; [done|]. split.
  { intros sp spans Hne. simpl. destruct spans; [done|]. done. }
  rewrite line_step_appends. fold (line_headings opts n line).
  rewrite line_headings_spec.
  destruct (line_spans line) as [|sp spans]; cbn iota zeta; [rewrite app_nil_r; auto|].
  destruct (line_text (sp :: spans)) as [|c txt] eqn:Htxt; cbn iota;
    [rewrite app_nil_r; auto|].
  split; [done|].
  destruct (classify _ _ _ _) as [lv|]; cbn iota; [|rewrite app_nil_r; auto].
  right. exists lv. by rewrite normalize_text_refines.
Qed.

(** ** C7: the title *)

(** A title with blanks around it is returned without them. *)
Lemma padded_title_is_trimmed :
  metadata_title padded_title_doc = Returns (Some (py " Report ")) ∧
  strip (py " Report ") ≠ [] ∧
  @extract_outline (sample_runtime padded_title_doc) sample_source default_options
  = Returns (py "Report", [],
             {| pages_with_images := []; links := []; image_previews := [] |}) ∧
  py "Report" ≠ py " Report ".
Proof. repeat split; try (vm_compute; reflexivity); vm_compute; discriminate. Qed.

Lemma resolve_title_spec meta_title :
  (∀ t, meta_title = Some t → strip t ≠ [] → resolve_title meta_title = strip t) ∧
  (meta_title = None → resolve_title meta_title = py "Untitled") ∧
  (∀ t, meta_title = Some t → strip t = [] → resolve_title meta_title = py "Untitled") ∧
  resolve_title meta_title ≠ [].
Proof.
  unfold resolve_title. repeat split.
  - intros t -> Ht. by destruct (strip t).
  - by intros ->.
  - by intros t -> ->.
  - destruct meta_title as [t|]; [|done]. by destruct (strip t).
Qed.

(** A title without blanks around it is its own trimming. *)
Lemma strip_trimmed t : starts_clean t → starts_clean (rev t) → strip t = t.
Proof.
  intros Hl Hr. unfold strip, rstrip.
  by rewrite (lstrip_clean t), (lstrip_clean (rev t)), rev_involutive.
Qed.

(** C7, amended. For every document that is read, the returned title is the
    metadata title with leading and trailing whitespace removed when the
    metadata title is present and not blank, and the sentinel ["Untitled"]
    otherwise; it is never empty, and a metadata title without surrounding
    whitespace is returned as it is. *)
Theorem title_is_trimmed_or_Untitled `{Runtime} (source : Source)
    (opts : Options) (doc : Document) (meta_title : option pystr)
    (pages : list Page) :
  open_source source = Returns doc →
  metadata_title doc = Returns meta_title →
  load_pages (doc_pages doc) = Returns pages →
  ∃ title headings md,
    extract_outline source opts = Returns (title, headings, md) ∧
    (∀ t, meta_title = Some t → strip t ≠ [] → title = strip t) ∧
    (∀ t, meta_title = Some t → strip t ≠ [] →
          starts_clean t → starts_clean (rev t) → title = t) ∧
    (meta_title = None → title = py "Untitled") ∧
    (∀ t, meta_title = Some t → strip t = [] → title = py "Untitled") ∧
    title ≠ [].
Proof.
  intros Hopen Hmeta Hload.
  destruct (extract_outline_returns source opts doc _ _ Hopen Hmeta Hload)
    as (image_pages & Hret & _).
  destruct (resolve_title_spec meta_title) as (Hsome & Hnone & Hblank & Hne).
  do 3 eexists. split; [exact Hret|].
  repeat split; try done.
  intros t Ht Hs Hl Hr. rewrite (Hsome t) by done. by apply strip_trimmed.
Qed.

Lemma title_is_trimmed_or_Untitled_witness :
  ∃ title headings md,
    @extract_outline (sample_runtime padded_title_doc) sample_source default_options
    = Returns (title, headings, md) ∧
    title = py "Report".
Proof.
  destruct (@title_is_trimmed_or_Untitled (sample_runtime padded_title_doc)
              sample_source default_options padded_title_doc
              (Some (py " Report ")) [text_page []] eq_refl eq_refl eq_refl)
    as (title & headings & md & Hret & Hsome & _).
  exists title, headings, md. split; [exact Hret|].
  rewrite (Hsome (py " Report ")); [vm_compute; reflexivity | reflexivity |].
  vm_compute. discriminate.
Defined.

(** ** C6: the dominant font size *)

Lemma py_max_fold_spec (rest : list pyfloat) (x : pyfloat) :
  is_nan x = false → Forall (fun s => is_nan s = false) rest →
  let m := fold_left (fun m item => if float_gt item m then item else m) rest x in
  (m = x ∨ m ∈ rest) ∧ is_nan m = false ∧
  float_ge m x = true ∧ ∀ s, s ∈ rest → float_ge m s = true.
Proof.
  intros Hx Hrest. revert x Hx.
  induction Hrest as [|item rest Hitem Hrest IH]; intros x Hx; cbv zeta; simpl.
  - repeat split; [by left | done | by apply float_ge_refl |].
    intros s Hs. by apply elem_of_nil in Hs.
  - set (x' := if float_gt item x then item else x).
    assert (Hx' : is_nan x' = false) by (unfold x'; by destruct (float_gt item x)).
    assert (Hge_x : float_ge x' x = true).
    { unfold x'. destruct (float_gt item x) eqn:Hgt;
        [by apply float_gt_ge | by apply float_ge_refl]. }
    assert (Hge_item : float_ge x' item = true).
    { unfold x'. destruct (float_gt item x) eqn:Hgt;
        [by apply float_ge_refl | by apply float_gt_false_ge]. }
    specialize (IH x' Hx'). cbv zeta in IH. destruct IH as (Hin & Hnan & Hm & Hall).
    repeat split.
    + destruct Hin as [->|Hin]; [|right; apply elem_of_cons; by right].
      unfold x'. destruct (float_gt item x); [right; apply elem_of_cons|]; by left.
    + done.
    + by apply float_ge_trans with x'.
    + intros s Hs. apply elem_of_cons in Hs as [->|Hs]; [|by apply Hall].
      by apply float_ge_trans with x'.
Qed.

(** On sizes that are numbers, [max] returns a member that is at least
    every member. *)
Lemma py_max_spec (sizes : list pyfloat) :
  sizes ≠ [] → Forall (fun s => is_nan s = false) sizes →
  ∃ m, py_max sizes = Some m ∧ m ∈ sizes ∧ ∀ s, s ∈ sizes → float_ge m s = true.
Proof.
  destruct sizes as [|x rest]; [done|]. intros _ Hall.
  apply Forall_cons in Hall as [Hx Hrest].
  pose proof (py_max_fold_spec rest x Hx Hrest) as Hm. cbv zeta in Hm.
  destruct Hm as (Hin & _ & Hge & Hall).
  eexists. split; [reflexivity|]. split.
  - destruct Hin as [->|Hin]; apply elem_of_cons; [by left | by right].
  - intros s Hs. apply elem_of_cons in Hs as [->|Hs]; [done | by apply Hall].
Qed.

Lemma span_font_sizes_usable (spans : list Span) :
  Forall usable_size spans →
  ∃ sizes, span_font_sizes spans = Returns sizes ∧
           Forall (fun s => is_nan s = false) sizes ∧
           Forall2 (fun sp s => span_font_size sp = Returns s) spans sizes.
Proof.
  induction 1 as [|sp spans Hsp _ (sizes & Hsizes & Hnan & Hall)]; simpl.
  - exists []. repeat split; constructor.
  - unfold usable_size in Hsp. unfold span_font_size at 1.
    destruct (span_size sp) as [|f|] eqn:Hsize; [| |done]; simpl; rewrite Hsizes; simpl.
    + exists (Num 0 :: sizes). repeat split; [by constructor |].
      constructor; [|done]. unfold span_font_size. by rewrite Hsize.
    + exists (f :: sizes). repeat split; [by constructor |].
      constructor; [|done]. unfold span_font_size. by rewrite Hsize.
Qed.

Lemma round_half_even_close (q : Q) :
  (q - (1 # 2) <= inject_Z (round_half_even q))%Q ∧
  (inject_Z (round_half_even q) <= q + (1 # 2))%Q.
Proof.
  unfold round_half_even.
  pose proof (Qfloor_le q) as Hlo. pose proof (Qlt_floor q) as Hhi.
  rewrite inject_Z_plus in Hhi.
  destruct (Qcompare_spec (q - inject_Z (Qfloor q)) (1 # 2)) as [Heq|Hlt|Hgt].
  - destruct (Z.even (Qfloor q)); rewrite ?inject_Z_plus;
      change (inject_Z 1) with 1%Q in *; split; lra.
  - change (inject_Z 1) with 1%Q in *. split; lra.
  - rewrite inject_Z_plus. change (inject_Z 1) with 1%Q in *. split; lra.
Qed.

(** The stored size is a whole number of hundredths, within half a hundredth
    of the size it rounds. *)
Lemma round2_close (q : Q) :
  ∃ k : Z, round2 (Num q) = Num (k # 100) ∧
           (q - (1 # 200) <= k # 100)%Q ∧ (k # 100 <= q + (1 # 200))%Q.
Proof.
  exists (round_half_even (q * 100)). split; [done|].
  destruct (round_half_even_close (q * 100)) as [Hlo Hhi].
  assert (Hk : (round_half_even (q * 100) # 100
                == inject_Z (round_half_even (q * 100)) * (1 # 100))%Q).
  { unfold Qeq, inject_Z, Qmult. simpl. lia. }
  rewrite Hk. split; lra.
Qed.

(** A size just below a threshold is classified below it although its stored
    rounding reaches the threshold. *)
Lemma classification_is_on_the_unrounded_size :
  classify (Num (4607 # 256)) (Num 18) (Num 14) (Num 10) = Some H2 ∧
  round2 (Num (4607 # 256)) = Num (1800 # 100) ∧
  classify (round2 (Num (4607 # 256))) (Num 18) (Num 14) (Num 10) = Some H1.
Proof. repeat split. Qed.

(** C6. For every line with at least one span whose spans carry numbers as
    sizes (an absent size reads as 0), the dominant font size is the maximum
    of the span sizes: one of them, and at least each of them. The level of
    the heading is the classification of that maximum as it is, and the
    stored [font_size] is the maximum rounded to two decimals. *)
Theorem dominant_font_size_is_max (opts : Options) (n : Z) (line : Line) :
  line_spans line ≠ [] →
  Forall usable_size (line_spans line) →
  ∃ sizes m,
    Forall2 (fun sp s => span_font_size sp = Returns s) (line_spans line) sizes ∧
    line_max_font (line_spans line) = m ∧
    m ∈ sizes ∧
    (∀ s, s ∈ sizes → float_ge m s = true) ∧
    line_headings opts n line
    = match line_text (line_spans line),
            classify m (min_h1 opts) (min_h2 opts) (min_h3 opts) with
      | _ :: _, Some lv =>
          [{| level := lv;
              text := _normalize_text (line_text (line_spans line));
              page := n;
              font_size := round2 m |}]
      | _, _ => []
      end ∧
    (∀ q, m = Num q →
       ∃ k : Z, round2 m = Num (k # 100) ∧
                (q - (1 # 200) <= k # 100)%Q ∧ (k # 100 <= q + (1 # 200))%Q).
Proof.
  intros Hne Husable.
  destruct (span_font_sizes_usable _ Husable) as (sizes & Hsizes & Hnan & Hall).
  assert (Hsizes_ne : sizes ≠ []).
  { intros ->. destruct (line_spans line); [done | inversion Hall]. }
  destruct (py_max_spec sizes Hsizes_ne Hnan) as (m & Hmax & Hin & Hge).
  assert (Hm : line_max_font (line_spans line) = m).
  { unfold line_max_font, max_span_size. rewrite Hsizes. simpl. by rewrite Hmax. }
  exists sizes, m. repeat split; try done.
  - rewrite line_headings_spec. revert Hm.
    destruct (line_spans line) as [|sp spans]; [done|]. cbn iota zeta.
    intros ->. destruct (line_text (sp :: spans)); [done|].
    by destruct (classify _ _ _ _).
  - intros q ->. apply round2_close.
Qed.

Lemma dominant_font_size_is_max_witness :
  ∃ sizes m,
    sizes = [Num (45 # 2); Num 9; Num 0] ∧
    line_max_font [mk_span "Big" (45 # 2); mk_span "small" 9;
                   {| span_text := Some (py "x"); span_size := SizeMissing |}] = m ∧
    m ∈ sizes ∧ (∀ s, s ∈ sizes → float_ge m s = true).
Proof.
  assert (Hne : [mk_span "Big" (45 # 2); mk_span "small" 9;
                 {| span_text := Some (py "x"); span_size := SizeMissing |}] ≠ [])
    by discriminate.
  assert (Hu : Forall usable_size
                 [mk_span "Big" (45 # 2); mk_span "small" 9;
                  {| span_text := Some (py "x"); span_size := SizeMissing |}])
    by (repeat constructor).
  destruct (dominant_font_size_is_max default_options 1
              {| line_spans := [mk_span "Big" (45 # 2); mk_span "small" 9;
                                {| span_text := Some (py "x");
                                   span_size := SizeMissing |}] |} Hne Hu)
    as (sizes & m & Hall & Hm & Hin & Hge & _).
  - exists sizes, m. repeat split; try done.
    simpl in Hall.
    repeat match goal with
           | Hf : Forall2 _ (_ :: _) _ |- _ =>
               apply Forall2_cons_inv_l in Hf as (? & ? & Heq & Hf & ->);
               injection Heq as <-
           | Hf : Forall2 _ [] _ |- _ => apply Forall2_nil_inv_l in Hf as ->
           end.
    reflexivity.
Defined.

(** ** C10: lines without a usable size *)

Lemma span_font_sizes_lacking (spans : list Span) :
  Forall lacks_size spans →
  (∃ e, span_font_sizes spans = Raises e) ∨
  (∃ sizes, span_font_sizes spans = Returns sizes ∧ Forall (fun s => s = Num 0) sizes).
Proof.
  induction 1 as [|sp spans Hsp _ IH]; simpl.
  - right. exists []. by split.
  - unfold span_font_size. destruct Hsp as [-> | ->]; simpl.
    + destruct IH as [[e ->]|(sizes & -> & Hz)]; simpl; [left; by exists e|].
      right. exists (Num 0 :: sizes). split; [done | by constructor].
    + left. by exists ValueError.
Qed.

Lemma py_max_zeros (sizes : list pyfloat) :
  Forall (fun s => s = Num 0) sizes → py_max sizes = None ∨ py_max sizes = Some (Num 0).
Proof.
  destruct 1 as [|x rest -> Hrest]; [by left | right]. simpl. f_equal.
  induction Hrest as [|y rest -> _ IH]; simpl; [done | exact IH].
Qed.

Lemma line_max_font_lacking (spans : list Span) :
  Forall lacks_size spans → line_max_font spans = Num 0.
Proof.
  intros Hl. unfold line_max_font, max_span_size.
  destruct (span_font_sizes_lacking spans Hl) as [[e ->]|(sizes & -> & Hz)]; simpl; [done|].
  by destruct (py_max_zeros sizes Hz) as [-> | ->].
Qed.

Lemma classify_zero_positive m1 m2 m3 :
  float_gt m1 (Num 0) = true → float_gt m2 (Num 0) = true →
  float_gt m3 (Num 0) = true → classify (Num 0) m1 m2 m3 = None.
Proof.
  intros G1 G2 G3. apply classify_None.
  repeat split; by apply float_lt_not_ge.
Qed.

(** A step that adds nothing can be left out of the loop. *)
Lemma fold_left_skip {A B : Type} (f : B → A → B) (x : A) before after acc :
  (∀ b, f b x = b) →
  fold_left f (before ++ x :: after) acc = fold_left f (before ++ after) acc.
Proof. intros Hx. rewrite !fold_left_app. simpl. by rewrite Hx. Qed.

(** C10. For every line whose spans all lack a usable numeric size (no
    entry, or an entry [float()] rejects), the dominant font size is 0.0;
    under strictly positive thresholds, the defaults among them, the line
    adds no heading, and the loop over the lines goes on as if the line were
    not there: nothing is raised past the line. *)
Theorem unusable_sizes_give_no_heading (opts : Options) (n : Z) (line : Line) :
  Forall lacks_size (line_spans line) →
  line_max_font (line_spans line) = Num 0 ∧
  (float_gt (min_h1 opts) (Num 0) = true →
   float_gt (min_h2 opts) (Num 0) = true →
   float_gt (min_h3 opts) (Num 0) = true →
   line_headings opts n line = [] ∧
   ∀ before after acc,
     fold_left (line_step opts n) (before ++ line :: after) acc
     = fold_left (line_step opts n) (before ++ after) acc) ∧
  line_headings default_options n line = [].
Proof.
  intros Hl. pose proof (line_max_font_lacking _ Hl) as Hm.
  assert (Hnone : ∀ o, classify (Num 0) (min_h1 o) (min_h2 o) (min_h3 o) = None →
                       line_headings o n line = []).
  { intros o Hc. rewrite line_headings_spec. revert Hm.
    destruct (line_spans line) as [|sp spans]; [done|]. cbn iota zeta.
    intros ->. rewrite Hc. by destruct (line_text (sp :: spans)). }
  split; [done|]. split; [|by apply Hnone].
  intros G1 G2 G3.
  assert (Hnil : line_headings opts n line = [])
    by (by apply Hnone, classify_zero_positive).
  split; [done|]. intros before after acc. apply fold_left_skip.
  intros b. rewrite line_step_appends. fold (line_headings opts n line).
  by rewrite Hnil, app_nil_r.
Qed.

Lemma unusable_sizes_give_no_heading_witness :
  line_max_font [bad_size_span] = Num 0 ∧
  line_headings default_options 1 {| line_spans := [bad_size_span] |} = [].
Proof.
  assert (Hl : Forall lacks_size [bad_size_span])
    by (constructor; [by right | constructor]).
  destruct (unusable_sizes_give_no_heading default_options 1
              {| line_spans := [bad_size_span] |} Hl) as (Hm & _ & Hd).
  by split.
Defined.

(** ** C4: which failures are fatal *)

(** A preview that is produced is a PNG data URI. *)
Lemma make_image_preview_data_uri `{Runtime} img_bytes max_size p :
  _make_image_preview img_bytes max_size = Returns p →
  ∃ png, p = data_uri_prefix ++ b64encode png.
Proof.
  unfold _make_image_preview.
  destruct (Image_open img_bytes) as [e|img]; simpl; [done|].
  destruct (Image_convert_RGB img) as [e|rgb]; simpl; [done|].
  destruct (Image_thumbnail rgb (max_size, max_size)) as [e|small]; simpl; [done|].
  destruct (Image_save_PNG small) as [e|png]; simpl; [done|].
  intros [= <-]. by exists png.
Qed.



(** [extract_outline] raises exactly when reading the document does, and
    then the same exception. *)
Lemma extract_outline_raises `{Runtime} (source : Source) (opts : Options) e :
  extract_outline source opts = Raises e ↔ read_document source = Raises e.
Proof.
  unfold extract_outline, read_document.
  destruct (open_source source) as [e1|doc]; simpl;
    [split; intros [= ->]; reflexivity|].
  destruct (metadata_title doc) as [e2|meta_title]; simpl;
    [split; intros [= ->]; reflexivity|].
  rewrite run_pages_loaded.
  destruct (load_pages (doc_pages doc)) as [e3|pages]; simpl;
    [split; intros [= ->]; reflexivity|].
  split; discriminate.
Qed.

(** A page that cannot be loaded ends the call, whatever the pages before it
    held: the [for] statement that loads it is outside every [try]. *)
Lemma unloadable_page_aborts :
  @extract_outline (sample_runtime broken_page_doc) sample_source default_options
  = Raises (LibraryError (py "cannot load page")).
Proof. reflexivity. Qed.



(** * Further properties of the extractor *)

(** ** [_normalize_text] *)

Lemma split_go_words w s :
  no_space w → Forall (fun x => x ≠ [] ∧ no_space x) (split_go w s).
Proof.
  revert w. induction s as [|c s IH]; intros w Hw; simpl.
  - destruct w as [|d w]; [apply List.Forall_nil|].
    apply List.Forall_cons; [done | apply List.Forall_nil].
  - destruct (is_space c) eqn:Hc.
    + assert (Hnil : no_space []) by apply List.Forall_nil.
      destruct w as [|d w]; [by apply IH|].
      apply List.Forall_cons; [done | by apply IH].
    + apply IH. apply Forall_app. split; [done|].
      apply List.Forall_cons; [done | apply List.Forall_nil].
Qed.

Lemma split_go_word_prefix v : ∀ w t,
  no_space v → split_go w (v ++ t) = split_go (w ++ v) t.
Proof.
  induction v as [|c v IH]; intros w t Hv; simpl.
  - by rewrite app_nil_r.
  - apply Forall_cons in Hv as [Hc Hv]. rewrite Hc, IH by done.
    by rewrite <- app_assoc.
Qed.

(** Splitting what was joined by single spaces gives the words back. *)
Lemma split_join ws :
  Forall (fun x => x ≠ [] ∧ no_space x) ws → split (join [space] ws) = ws.
Proof.
  unfold split. induction 1 as [|w ws [Hne Hw] Hws IH]; [done|].
  destruct ws as [|w' ws].
  - simpl. rewrite <- (app_nil_r w) at 1. rewrite split_go_word_prefix by done.
    simpl. by destruct w.
  - rewrite join_cons by done. rewrite split_go_word_prefix by done.
    change ([space] ++ join [space] (w' :: ws)) with (space :: join [space] (w' :: ws)).
    cbn [split_go app]. change (is_space space) with true. cbn iota.
    rewrite IH. by destruct w.
Qed.

Lemma split_go_nil_blank w s : split_go w s = [] → w = [] ∧ lstrip s = [].
Proof.
  revert w. induction s as [|c s IH]; intros w; simpl.
  - by destruct w.
  - destruct (is_space c).
    + destruct w; [apply IH | done].
    + intros Hnil. exfalso. revert Hnil. apply split_go_nonempty. by destruct w.
Qed.

Lemma join_nonempty ws :
  ws ≠ [] → Forall (fun x => x ≠ [] ∧ no_space x) ws → join [space] ws ≠ [].
Proof.
  destruct 2 as [|w ws [Hne _] _]; [done|].
  destruct ws; [done|]. rewrite join_cons by done. by destruct w.
Qed.

Lemma normalize_text_words s : _normalize_text s = join [space] (split s).
Proof. by rewrite normalize_text_refines, normalize_spec_words. Qed.

(** X1. [_normalize_text] returns the words of its argument, which hold no
    whitespace, joined by single spaces. Hence its result has the same words,
    is left unchanged by [strip] and by a second normalisation, and is empty
    exactly when the argument holds whitespace only. *)
Theorem normalize_text_canonical (s : pystr) :
  (∃ words, Forall (fun w => w ≠ [] ∧ no_space w) words ∧
            split s = words ∧ _normalize_text s = join [space] words) ∧
  split (_normalize_text s) = split s ∧
  strip (_normalize_text s) = _normalize_text s ∧
  _normalize_text (_normalize_text s) = _normalize_text s ∧
  (_normalize_text s = [] ↔ strip s = []).
Proof.
  assert (Hwords : Forall (fun w => w ≠ [] ∧ no_space w) (split s))
    by (apply split_go_words; apply List.Forall_nil).
  assert (Hsplit : split (_normalize_text s) = split s)
    by (rewrite normalize_text_words; by apply split_join).
  repeat split.
  - exists (split s). repeat split; [done | apply normalize_text_words].
  - done.
  - unfold _normalize_text. apply strip_idemp.
  - by rewrite (normalize_text_words (_normalize_text s)), Hsplit, normalize_text_words.
  - intros Hnil. rewrite normalize_text_words in Hnil.
    destruct (split s) as [|w ws] eqn:Hs.
    + apply split_go_nil_blank in Hs as [_ Hs]. unfold strip. by rewrite Hs.
    + exfalso. revert Hnil. by apply join_nonempty.
  - intros Hblank. rewrite normalize_text_words.
    assert (Hl : lstrip s = []).
    { unfold strip, rstrip in Hblank. apply rev_eq_nil in Hblank.
      pose proof (lstrip_starts_clean s) as Hc.
      destruct (lstrip s) as [|c t] eqn:Ht; [done|]. exfalso.
      revert Hblank. change (c :: t) with ([c] ++ t).
      rewrite rev_app_distr. simpl in Hc.
      destruct (decide (lstrip (rev t) = [])) as [Hr|Hr].
      - rewrite lstrip_app_blank by done. simpl. by rewrite Hc.
      - rewrite lstrip_app_keep by done. by destruct (lstrip (rev t)). }
    unfold split. by rewrite <- split_go_lstrip, Hl.
Qed.

(** ** Where the headings of the result come from *)

Lemma elem_of_flat_map {A B : Type} (f : A → list B) (l : list A) (y : B) :
  y ∈ flat_map f l ↔ ∃ x, x ∈ l ∧ y ∈ f x.
Proof.
  rewrite list_elem_of_In, in_flat_map.
  split; intros (x & Hx & Hy); exists x; by rewrite ?list_elem_of_In in *.
Qed.

Lemma elem_of_line_headings opts n line h :
  h ∈ line_headings opts n line ↔ line_yields opts n line h.
Proof.
  rewrite line_headings_spec. unfold line_yields.
  destruct (line_spans line) as [|sp spans]; cbn iota zeta.
  { split; [intros Hin; by apply elem_of_nil in Hin | by intros [? _]]. }
  destruct (line_text (sp :: spans)) as [|c txt]; cbn iota.
  { split; [intros Hin; by apply elem_of_nil in Hin | by intros (_ & ? & _)]. }
  destruct (classify _ _ _ _) as [lv|].
  - rewrite list_elem_of_singleton. split.
    + intros ->. repeat split; try done. by exists lv.
    + intros (_ & _ & lv' & [= <-] & ->). done.
  - split; [intros Hin; by apply elem_of_nil in Hin|].
    by intros (_ & _ & lv' & ? & _).
Qed.

Lemma elem_of_page_headings opts n pg h :
  h ∈ page_headings opts n pg ↔
  ∃ line, line_of_page pg line ∧ line_yields opts n line h.
Proof.
  unfold page_headings, line_of_page.
  destruct (get_text_blocks pg) as [e|blocks].
  { split; [intros Hin; by apply elem_of_nil in Hin|].
    by intros (line & (? & ? & ? & ? & _) & _). }
  rewrite elem_of_flat_map. split.
  - intros (block & Hblock & Hh). unfold block_headings in Hh.
    destruct (block_lines block) as [lines|] eqn:Hlines;
      [|by apply elem_of_nil in Hh].
    apply elem_of_flat_map in Hh as (line & Hline & Hh).
    exists line. split; [by exists blocks, block, lines|].
    by apply elem_of_line_headings.
  - intros (line & (blocks' & block & lines & [= <-] & Hblock & Hlines & Hline) & Hy).
    exists block. split; [done|]. unfold block_headings. rewrite Hlines.
    apply elem_of_flat_map. exists line. split; [done|].
    by apply elem_of_line_headings.
Qed.

Lemma elem_of_all_headings opts (pages : list Page) h :
  h ∈ all_headings opts pages ↔
  ∃ n pg line, page_at pages n = Some pg ∧ line_of_page pg line ∧
               line_yields opts n line h.
Proof.
  unfold all_headings. rewrite elem_of_flat_map. split.
  - intros ([n pg] & Hnp & Hh). simpl in Hh.
    apply elem_of_page_headings in Hh as (line & Hline & Hy).
    exists n, pg, line. split; [by apply elem_of_enumerate_pages | done].
  - intros (n & pg & line & Hpg & Hline & Hy).
    exists (n, pg). split; [by apply elem_of_enumerate_pages|].
    apply elem_of_page_headings. by exists line.
Qed.

Lemma page_at_bounds (pages : list Page) n pg :
  page_at pages n = Some pg → 1 ≤ n ≤ Z.of_nat (List.length pages).
Proof.
  unfold page_at. destruct (Z.leb_spec 1 n); [|done].
  intros Hl. apply lookup_lt_Some in Hl. lia.
Qed.

(** X2. The headings of the result and the lines of the document: each heading
    comes from a line of a text block of the page whose number it bears, a
    line with spans and a non-empty text whose largest font size reaches a
    threshold; conversely each such line is represented in the result by a
    heading with the same level, lowercase text and page. *)
Theorem headings_come_from_lines `{Runtime} (source : Source) (opts : Options)
    (doc : Document) (meta_title : option pystr) (pages : list Page) :
  open_source source = Returns doc →
  metadata_title doc = Returns meta_title →
  load_pages (doc_pages doc) = Returns pages →
  ∃ title headings md,
    extract_outline source opts = Returns (title, headings, md) ∧
    (∀ h, h ∈ headings →
       ∃ n pg line, page_at pages n = Some pg ∧ line_of_page pg line ∧
                    line_yields opts n line h) ∧
    (∀ n pg line h, page_at pages n = Some pg → line_of_page pg line →
       line_yields opts n line h →
       ∃ h', h' ∈ headings ∧ heading_key h' = heading_key h).
Proof.
  intros Hopen Hmeta Hload.
  destruct (extract_outline_returns source opts doc _ _ Hopen Hmeta Hload)
    as (image_pages & Hret & _).
  do 3 eexists. split; [exact Hret|]. split.
  - intros h Hh. apply elem_of_all_headings.
    rewrite dedup_headings_from in Hh.
    eapply elem_of_sublist; [exact Hh | apply dedup_from_sublist].
  - intros n pg line h Hpg Hline Hy.
    assert (Hin : h ∈ all_headings opts pages)
      by (apply elem_of_all_headings; by exists n, pg, line).
    assert (Hk : heading_key h ∈ keys_of (dedup_headings (all_headings opts pages))).
    { rewrite dedup_headings_from, dedup_from_keys. split; [|apply not_elem_of_empty].
      unfold keys_of. apply list_elem_of_In, in_map, list_elem_of_In, Hin. }
    unfold keys_of in Hk. apply list_elem_of_In, in_map_iff in Hk as (h' & Hk & Hh').
    exists h'. split; [by apply list_elem_of_In | done].
Qed.

Lemma headings_come_from_lines_witness :
  ∃ title headings md,
    @extract_outline (sample_runtime sample_doc) sample_source default_options
    = Returns (title, headings, md) ∧
    ∀ h, h ∈ headings →
      ∃ n pg line, page_at sample_pages n = Some pg ∧ line_of_page pg line ∧
                   line_yields default_options n line h.
Proof.
  destruct (@headings_come_from_lines (sample_runtime sample_doc) sample_source
              default_options sample_doc None sample_pages eq_refl eq_refl eq_refl)
    as (title & headings & md & Hret & Hfrom & _).
  by exists title, headings, md.
Defined.

(** X3. Every heading of the result has a page number between 1 and the number
    of pages, and a text that is not empty, has no whitespace at its ends
    and is left unchanged by [_normalize_text]; its level is the
    classification of a font size of which [font_size] is the rounding. *)
Theorem returned_headings_are_well_formed `{Runtime} (source : Source)
    (opts : Options) (doc : Document) (meta_title : option pystr)
    (pages : list Page) :
  open_source source = Returns doc →
  metadata_title doc = Returns meta_title →
  load_pages (doc_pages doc) = Returns pages →
  ∃ title headings md,
    extract_outline source opts = Returns (title, headings, md) ∧
    ∀ h, h ∈ headings →
      1 ≤ page h ≤ Z.of_nat (List.length pages) ∧
      text h ≠ [] ∧
      strip (text h) = text h ∧
      _normalize_text (text h) = text h ∧
      ∃ m, classify m (min_h1 opts) (min_h2 opts) (min_h3 opts) = Some (level h) ∧
           font_size h = round2 m.
Proof.
  intros Hopen Hmeta Hload.
  destruct (extract_outline_returns source opts doc _ _ Hopen Hmeta Hload)
    as (image_pages & Hret & _).
  do 3 eexists. split; [exact Hret|].
  intros h Hh. rewrite dedup_headings_from in Hh.
  eapply elem_of_sublist in Hh; [|apply dedup_from_sublist].
  apply elem_of_all_headings in Hh
    as (n & pg & line & Hpg & _ & _ & Htxt & lv & Hlv & ->). simpl.
  destruct (normalize_text_canonical (line_text (line_spans line)))
    as (_ & _ & Hstrip & Hidem & Hnil).
  repeat split; try done; try (by apply (page_at_bounds pages n pg)).
  - intros Hempty. apply Hnil in Hempty. apply Htxt.
    unfold line_text in *. by rewrite strip_idemp in Hempty.
  - by exists (line_max_font (line_spans line)).
Qed.

Lemma returned_headings_are_well_formed_witness :
  ∃ title headings md,
    @extract_outline (sample_runtime sample_doc) sample_source default_options
    = Returns (title, headings, md) ∧
    ∀ h, h ∈ headings → text h ≠ [] ∧ _normalize_text (text h) = text h.
Proof.
  destruct (@returned_headings_are_well_formed (sample_runtime sample_doc)
              sample_source default_options sample_doc None sample_pages
              eq_refl eq_refl eq_refl)
    as (title & headings & md & Hret & Hwf).
  exists title, headings, md. split; [exact Hret|].
  intros h Hh. destruct (Hwf h Hh) as (_ & Hne & _ & Hid & _). by split.
Defined.

(** ** Entries page by page *)

Section per_page.
Context {A B : Type} (page_of : B → Z) (f : Z → A → list B).
Hypothesis f_page : ∀ n x, Forall (fun b => page_of b = n) (f n x).

Lemma filter_same_page n l :
  Forall (fun b => page_of b = n) l →
  List.filter (fun b => page_of b =? n) l = l.
Proof.
  induction 1 as [|b l Hb _ IH]; simpl; [done|].
  rewrite IH. by rewrite (proj2 (Z.eqb_eq _ _) Hb).
Qed.

Lemma filter_other_page n k l :
  k ≠ n → Forall (fun b => page_of b = k) l →
  List.filter (fun b => page_of b =? n) l = [].
Proof.
  intros Hne. induction 1 as [|b l Hb _ IH]; simpl; [done|].
  rewrite IH. destruct (Z.eqb_spec (page_of b) n); [congruence | done].
Qed.

(** The entries filed under page [n] are those the page numbered [n] added,
    in the order in which it added them. *)
Lemma filter_page_enumerate n k (l : list A) :
  List.filter (fun b => page_of b =? n)
    (flat_map (fun np => f np.1 np.2) (enumerate k l))
  = if k <=? n
    then match l !! Z.to_nat (n - k) with
         | Some x => f n x
         | None => []
         end
    else [].
Proof.
  revert k. induction l as [|x l IH]; intros k; simpl.
  - by destruct (k <=? n).
  - rewrite List.filter_app, IH.
    destruct (Z.leb_spec k n) as [Hle|Hgt].
    + destruct (decide (k = n)) as [->|Hne].
      * rewrite filter_same_page by apply f_page.
        replace (n - n) with 0 by lia. simpl.
        destruct (Z.leb_spec (n + 1) n); [lia | by rewrite app_nil_r].
      * rewrite (filter_other_page n k) by (done || apply f_page).
        destruct (Z.leb_spec (k + 1) n); [|lia]. simpl.
        by replace (Z.to_nat (n - k)) with (S (Z.to_nat (n - (k + 1)))) by lia.
    + rewrite (filter_other_page n k) by (lia || apply f_page).
      by destruct (Z.leb_spec (k + 1) n); [lia|].
Qed.

Lemma flat_map_enumerate_lower k (l : list A) :
  Forall (fun b => k ≤ page_of b)
    (flat_map (fun np => f np.1 np.2) (enumerate k l)).
Proof.
  revert k. induction l as [|x l IH]; intros k; simpl; [constructor|].
  apply Forall_app. split.
  - eapply Forall_impl; [apply f_page|]. simpl. intros b ->. lia.
  - eapply Forall_impl; [apply IH|]. simpl. intros b Hb. lia.
Qed.

(** The entries are in page order. *)
Lemma flat_map_enumerate_order k (l : list A) :
  in_page_order page_of (flat_map (fun np => f np.1 np.2) (enumerate k l)).
Proof.
  unfold in_page_order.
  revert k. induction l as [|x l IH]; intros k; simpl; [constructor|].
  apply StronglySorted_app. split; [|split; [|apply IH]].
  - intros b1 b2 Hb1 Hb2.
    pose proof (f_page k x) as Hk. rewrite Forall_forall in Hk.
    pose proof (flat_map_enumerate_lower (k + 1) l) as Hlow.
    rewrite Forall_forall in Hlow.
    rewrite (Hk b1 Hb1). specialize (Hlow b2 Hb2). simpl in Hlow. lia.
  - pose proof (f_page k x) as Hk.
    induction Hk as [|b l' Hb Hl' IHl']; constructor; [done|].
    eapply Forall_impl; [exact Hl'|]. simpl. intros b' Hb'. lia.
Qed.
End per_page.

Lemma in_page_order_sublist {B : Type} (page_of : B → Z) (l1 l2 : list B) :
  sublist l1 l2 → in_page_order page_of l2 → in_page_order page_of l1.
Proof.
  unfold in_page_order.
  induction 1 as [|x l1 l2 Hsub IH|x l1 l2 Hsub IH]; intros Hs; [done| |].
  - apply StronglySorted_cons in Hs as [Hx Hs].
    apply StronglySorted_cons. split; [|by apply IH].
    rewrite Forall_forall in Hx |- *. intros y Hy. apply Hx.
    by eapply elem_of_sublist.
  - apply StronglySorted_cons in Hs as [_ Hs]. by apply IH.
Qed.

Lemma line_headings_page opts n line :
  Forall (fun h => page h = n) (line_headings opts n line).
Proof.
  apply Forall_forall. intros h Hh.
  apply elem_of_line_headings in Hh as (_ & _ & lv & _ & ->). done.
Qed.

Lemma page_headings_page opts n pg :
  Forall (fun h => page h = n) (page_headings opts n pg).
Proof.
  apply Forall_forall. intros h Hh.
  apply elem_of_page_headings in Hh
    as (line & _ & _ & _ & lv & _ & ->). done.
Qed.

Lemma elem_of_link_entry n link r :
  r ∈ link_entry n link ↔
  ∃ u, link_uri link = Some u ∧ u ≠ [] ∧ r = {| link_page := n; uri := u |}.
Proof.
  unfold link_entry, link_step.
  destruct (link_uri link) as [[|c u]|]; simpl.
  - split; [intros Hin; by apply elem_of_nil in Hin|].
    by intros (u & [= <-] & ? & _).
  - rewrite list_elem_of_singleton. split.
    + intros ->. by exists (c :: u).
    + by intros (u' & [= <-] & _ & ->).
  - split; [intros Hin; by apply elem_of_nil in Hin | by intros (u & ? & _)].
Qed.

Lemma page_links_page n pg : Forall (fun r => link_page r = n) (page_links n pg).
Proof.
  unfold page_links. destruct (get_links pg) as [e|ls]; [constructor|].
  apply Forall_forall. intros r Hr.
  apply elem_of_flat_map in Hr as (link & _ & Hr).
  by apply elem_of_link_entry in Hr as (u & _ & _ & ->).
Qed.

(** X4. The links of the result: an entry with page [n] and URI [u] is there
    exactly when a link annotation of page [n] carries the non-empty URI
    [u]; the entries of a page are those of its annotations that carry a
    non-empty URI, in the order of the annotations and with their repeats;
    when the link listing of the page fails, the page has no entry. *)
Theorem links_come_from_annotations `{Runtime} (source : Source) (opts : Options)
    (doc : Document) (meta_title : option pystr) (pages : list Page) :
  open_source source = Returns doc →
  metadata_title doc = Returns meta_title →
  load_pages (doc_pages doc) = Returns pages →
  ∃ title headings md,
    extract_outline source opts = Returns (title, headings, md) ∧
    (∀ r, r ∈ links md ↔
          ∃ pg link, page_at pages (link_page r) = Some pg ∧
                     link_of_page pg link ∧
                     link_uri link = Some (uri r) ∧ uri r ≠ []) ∧
    (∀ n pg ls, page_at pages n = Some pg → get_links pg = Returns ls →
       links_of_page n (links md) = flat_map (link_entry n) ls) ∧
    (∀ n pg e, page_at pages n = Some pg → get_links pg = Raises e →
       links_of_page n (links md) = []) ∧
    (∀ n, page_at pages n = None → links_of_page n (links md) = []).
Proof.
  intros Hopen Hmeta Hload.
  destruct (extract_outline_returns source opts doc _ _ Hopen Hmeta Hload)
    as (image_pages & Hret & _).
  do 3 eexists. split; [exact Hret|]. simpl.
  assert (Hfilter : ∀ n, links_of_page n (all_links pages)
                         = match page_at pages n with
                           | Some pg => page_links n pg
                           | None => []
                           end).
  { intros n. unfold links_of_page, all_links, page_at.
    rewrite (filter_page_enumerate link_page page_links page_links_page).
    by destruct (1 <=? n). }
  split; [|split; [|split]].
  - intros r. unfold all_links. rewrite elem_of_flat_map. split.
    + intros ([n pg] & Hnp & Hr). simpl in Hr. unfold page_links in Hr.
      destruct (get_links pg) as [e|ls] eqn:Hls; [by apply elem_of_nil in Hr|].
      apply elem_of_flat_map in Hr as (link & Hlink & Hr).
      apply elem_of_link_entry in Hr as (u & Hu & Hne & ->). simpl.
      exists pg, link. split; [by apply elem_of_enumerate_pages|].
      split; [by exists ls | done].
    + intros (pg & link & Hpg & (ls & Hls & Hlink) & Hu & Hne).
      exists (link_page r, pg). split; [by apply elem_of_enumerate_pages|].
      simpl. unfold page_links. rewrite Hls. apply elem_of_flat_map.
      exists link. split; [done|]. apply elem_of_link_entry.
      exists (uri r). by destruct r.
  - intros n pg ls Hpg Hls. rewrite Hfilter, Hpg. unfold page_links. by rewrite Hls.
  - intros n pg e Hpg Hls. rewrite Hfilter, Hpg. unfold page_links. by rewrite Hls.
  - intros n Hpg. by rewrite Hfilter, Hpg.
Qed.

Lemma links_come_from_annotations_witness :
  ∃ title headings md,
    @extract_outline (sample_runtime sample_doc) sample_source default_options
    = Returns (title, headings, md) ∧
    links_of_page 1 (links md)
    = [{| link_page := 1; uri := py "https://example.com" |}].
Proof.
  destruct (@links_come_from_annotations (sample_runtime sample_doc) sample_source
              default_options sample_doc None sample_pages eq_refl eq_refl eq_refl)
    as (title & headings & md & Hret & _ & Hpage & _).
  exists title, headings, md. split; [exact Hret|].
  by rewrite (Hpage 1 _ _ eq_refl eq_refl).
Defined.

(** X5. The headings, the links and the image previews of the result are each
    in page order. *)
Theorem result_is_in_page_order `{Runtime} (source : Source) (opts : Options)
    (doc : Document) (meta_title : option pystr) (pages : list Page) :
  open_source source = Returns doc →
  metadata_title doc = Returns meta_title →
  load_pages (doc_pages doc) = Returns pages →
  ∃ title headings md,
    extract_outline source opts = Returns (title, headings, md) ∧
    in_page_order page headings ∧
    in_page_order link_page (links md) ∧
    in_page_order preview_page (image_previews md).
Proof.
  intros Hopen Hmeta Hload.
  destruct (extract_outline_returns source opts doc _ _ Hopen Hmeta Hload)
    as (image_pages & Hret & _).
  do 3 eexists. split; [exact Hret|]. simpl. split; [|split].
  - apply (in_page_order_sublist page _ (all_headings opts pages)).
    + rewrite dedup_headings_from. apply dedup_from_sublist.
    + apply (flat_map_enumerate_order page (page_headings opts)).
      apply page_headings_page.
  - apply (flat_map_enumerate_order link_page page_links). apply page_links_page.
  - apply (flat_map_enumerate_order preview_page (page_previews doc opts)).
    apply page_previews_page.
Qed.

Lemma result_is_in_page_order_witness :
  ∃ title headings md,
    @extract_outline (sample_runtime sample_doc) sample_source all_images_options
    = Returns (title, headings, md) ∧
    in_page_order page headings ∧
    in_page_order link_page (links md) ∧
    in_page_order preview_page (image_previews md).
Proof.
  apply (@result_is_in_page_order (sample_runtime sample_doc) sample_source
           all_images_options sample_doc None sample_pages); reflexivity.
Defined.

(** ** Where the previews of the result come from *)

Lemma elem_of_preview_attempt `{Runtime} doc max_size n img p :
  p ∈ preview_attempt doc max_size n img ↔
  preview_page p = n ∧
  ∃ img_bytes, extract_image doc (xref img) = Returns (Some img_bytes) ∧
               img_bytes ≠ [] ∧
               _make_image_preview img_bytes max_size = Returns (preview p).
Proof.
  unfold preview_attempt, image_step.
  destruct (extract_image doc (xref img)) as [e|[[|b bs]|]]; simpl.
  - split; [intros Hin; by apply elem_of_nil in Hin | by intros (_ & ? & ? & _)].
  - split; [intros Hin; by apply elem_of_nil in Hin|].
    by intros (_ & ? & [= <-] & ? & _).
  - destruct (_make_image_preview (b :: bs) max_size) as [e|q] eqn:Hq; simpl.
    + split; [intros Hin; by apply elem_of_nil in Hin|].
      intros (_ & ? & [= <-] & _ & Hp). congruence.
    + rewrite list_elem_of_singleton. split.
      * intros ->. split; [done|]. by exists (b :: bs).
      * intros (<- & ? & [= <-] & _ & Hp). destruct p. simpl in *. congruence.
  - split; [intros Hin; by apply elem_of_nil in Hin | by intros (_ & ? & ? & _)].
Qed.

Lemma elem_of_page_previews `{Runtime} doc opts n pg p :
  p ∈ page_previews doc opts n pg ↔
  preview_page p = n ∧ ∃ img, image_yields doc opts pg img (preview p).
Proof.
  unfold page_previews, image_yields.
  destruct (get_images pg) as [e|images].
  { split; [intros Hin; by apply elem_of_nil in Hin|].
    by intros (_ & ? & ? & ? & ? & _). }
  rewrite elem_of_flat_map. split.
  - intros (img & Himg & Hp).
    apply elem_of_preview_attempt in Hp as (Hn & img_bytes & Hx & Hne & Hq).
    split; [done|]. by exists img, images, img_bytes.
  - intros (Hn & img & images' & img_bytes & [= <-] & Himg & Hx & Hne & Hq).
    exists img. split; [done|]. apply elem_of_preview_attempt.
    split; [done|]. by exists img_bytes.
Qed.

(** X6. The image previews of the result: an entry is there exactly when an
    image reference that is processed on the page of its number has
    non-empty image data of which the entry holds the preview. Hence every
    entry is a PNG data URI and its page is listed in [pages_with_images];
    and a page has no more entries than image references. *)
Theorem previews_come_from_images `{Runtime} (source : Source) (opts : Options)
    (doc : Document) (meta_title : option pystr) (pages : list Page) :
  open_source source = Returns doc →
  metadata_title doc = Returns meta_title →
  load_pages (doc_pages doc) = Returns pages →
  ∃ title headings md,
    extract_outline source opts = Returns (title, headings, md) ∧
    (∀ p, p ∈ image_previews md ↔
          ∃ pg img, page_at pages (preview_page p) = Some pg ∧
                    image_yields doc opts pg img (preview p)) ∧
    (∀ p, p ∈ image_previews md →
          preview_page p ∈ pages_with_images md ∧
          ∃ png, preview p = data_uri_prefix ++ b64encode png) ∧
    (∀ n pg images, page_at pages n = Some pg → get_images pg = Returns images →
       (List.length (previews_of_page n (image_previews md))
        ≤ List.length images)%nat).
Proof.
  intros Hopen Hmeta Hload.
  destruct (extract_outline_returns source opts doc _ _ Hopen Hmeta Hload)
    as (image_pages & Hret & Hpages).
  do 3 eexists. split; [exact Hret|]. simpl.
  assert (Hiff : ∀ p, p ∈ all_previews doc opts pages ↔
                      ∃ pg img, page_at pages (preview_page p) = Some pg ∧
                                image_yields doc opts pg img (preview p)).
  { intros p. unfold all_previews. rewrite elem_of_flat_map. split.
    - intros ([n pg] & Hnp & Hp). simpl in Hp.
      apply elem_of_page_previews in Hp as (Hn & img & Himg).
      exists pg, img. rewrite Hn. split; [by apply elem_of_enumerate_pages | done].
    - intros (pg & img & Hpg & Himg).
      exists (preview_page p, pg). split; [by apply elem_of_enumerate_pages|].
      apply elem_of_page_previews. split; [done | by exists img]. }
  split; [exact Hiff|]. split.
  - intros p Hp. apply Hiff in Hp
      as (pg & img & Hpg & images & img_bytes & Himgs & Himg & _ & _ & Hq).
    split.
    + apply (proj1 (proj2 (proj2 (sorted_spec image_pages)))), Hpages.
      exists pg. split; [done|]. exists images. split; [done|].
      intros ->. unfold imgs_to_process in Himg.
      destruct (detect_first_image_only opts); by apply elem_of_nil in Himg.
    + by apply make_image_preview_data_uri in Hq.
  - intros n pg images Hpg Himgs. rewrite previews_of_page_all, Hpg.
    unfold page_previews. rewrite Himgs.
    assert (Hlen : ∀ l : list ImageRef,
              (List.length (flat_map (preview_attempt doc (image_preview_max_size opts) n) l)
               ≤ List.length l)%nat).
    { induction l as [|img l IH]; simpl; [lia|]. rewrite length_app.
      pose proof (proj1 (preview_attempt_spec doc (image_preview_max_size opts) n img)).
      lia. }
    etransitivity; [apply Hlen|]. unfold imgs_to_process.
    destruct (detect_first_image_only opts); [|done].
    rewrite length_take. lia.
Qed.

Lemma previews_come_from_images_witness :
  ∃ title headings md,
    @extract_outline (sample_runtime sample_doc) sample_source all_images_options
    = Returns (title, headings, md) ∧
    ∀ p, p ∈ image_previews md →
         preview_page p ∈ pages_with_images md ∧
         ∃ png, preview p
                = data_uri_prefix ++ @b64encode (sample_runtime sample_doc) png.
Proof.
  destruct (@previews_come_from_images (sample_runtime sample_doc) sample_source
              all_images_options sample_doc None sample_pages
              eq_refl eq_refl eq_refl)
    as (title & headings & md & Hret & _ & Huri & _).
  by exists title, headings, md.
Defined.

(** ** What each option bears on *)

Lemma read_document_returns `{Runtime} source doc meta_title pages :
  read_document source = Returns (doc, meta_title, pages) →
  open_source source = Returns doc ∧
  metadata_title doc = Returns meta_title ∧
  load_pages (doc_pages doc) = Returns pages.
Proof.
  unfold read_document. intros Hread.
  destruct (open_source source) as [e1|doc'] eqn:Hopen; simpl in Hread; [done|].
  destruct (metadata_title doc') as [e2|mt] eqn:Hmeta; simpl in Hread; [done|].
  destruct (load_pages (doc_pages doc')) as [e3|pgs] eqn:Hload;
    simpl in Hread; [done|].
  by injection Hread as -> -> ->.
Qed.

Lemma line_headings_thresholds o1 o2 n line :
  same_thresholds o1 o2 → line_headings o1 n line = line_headings o2 n line.
Proof.
  intros (E1 & E2 & E3). rewrite !line_headings_spec. by rewrite E1, E2, E3.
Qed.

Lemma all_headings_thresholds o1 o2 (pages : list Page) :
  same_thresholds o1 o2 → all_headings o1 pages = all_headings o2 pages.
Proof.
  intros Hsame. unfold all_headings. apply flat_map_ext. intros [n pg]. simpl.
  unfold page_headings. destruct (get_text_blocks pg) as [e|blocks]; [done|].
  apply flat_map_ext. intros block. unfold block_headings.
  destruct (block_lines block) as [lines|]; [|done].
  apply flat_map_ext. intros line. by apply line_headings_thresholds.
Qed.

Lemma sublist_flat_map {A B : Type} (f : A → list B) (l1 l2 : list A) :
  sublist l1 l2 → sublist (flat_map f l1) (flat_map f l2).
Proof.
  induction 1 as [|x l1 l2 _ IH|x l1 l2 _ IH]; simpl; [done| |].
  - by apply sublist_app.
  - by apply sublist_inserts_l.
Qed.

Lemma sublist_flat_map_pointwise {A B : Type} (f g : A → list B) (l : list A) :
  (∀ x, sublist (f x) (g x)) → sublist (flat_map f l) (flat_map g l).
Proof.
  intros Hfg. induction l as [|x l IH]; simpl; [done|]. by apply sublist_app.
Qed.

Lemma page_previews_first_only `{Runtime} doc o1 o2 n pg :
  image_preview_max_size o1 = image_preview_max_size o2 →
  detect_first_image_only o1 = true →
  sublist (page_previews doc o1 n pg) (page_previews doc o2 n pg).
Proof.
  intros Hsize Hfirst. unfold page_previews.
  destruct (get_images pg) as [e|images]; [done|].
  rewrite Hsize, Hfirst. apply sublist_flat_map. unfold imgs_to_process.
  destruct (detect_first_image_only o2); [done | apply sublist_take].
Qed.

(** X7. Two calls on the same source that differ in their options fail alike or
    return alike: the same title, links and pages with images whatever the
    options; the same headings when the thresholds agree; the same previews
    when the preview options agree; and with the preview size fixed, the
    previews of a call with [detect_first_image_only] set are a subsequence
    of the previews of any other call. *)
Theorem options_act_separately `{Runtime} (source : Source) (o1 o2 : Options) :
  match extract_outline source o1, extract_outline source o2 with
  | Returns (t1, h1, m1), Returns (t2, h2, m2) =>
      t1 = t2 ∧
      links m1 = links m2 ∧
      pages_with_images m1 = pages_with_images m2 ∧
      (same_thresholds o1 o2 → h1 = h2) ∧
      (same_image_options o1 o2 → image_previews m1 = image_previews m2) ∧
      (image_preview_max_size o1 = image_preview_max_size o2 →
       detect_first_image_only o1 = true →
       sublist (image_previews m1) (image_previews m2))
  | Raises e1, Raises e2 => e1 = e2
  | _, _ => False
  end.
Proof.
  destruct (read_document source) as [e|[[doc meta_title] pages]] eqn:Hread.
  - by rewrite !(proj2 (extract_outline_raises source _ e) Hread).
  - apply read_document_returns in Hread as (Hopen & Hmeta & Hload).
    destruct (extract_outline_returns source o1 doc _ _ Hopen Hmeta Hload)
      as (pages1 & -> & Hpages1).
    destruct (extract_outline_returns source o2 doc _ _ Hopen Hmeta Hload)
      as (pages2 & -> & Hpages2).
    simpl. repeat split.
    + f_equal. apply set_eq. intros n. by rewrite Hpages1, Hpages2.
    + intros Hsame. by rewrite (all_headings_thresholds o1 o2).
    + intros [Hsize Hflag]. unfold all_previews. apply flat_map_ext.
      intros [n pg]. simpl. unfold page_previews. by rewrite Hsize, Hflag.
    + intros Hsize Hfirst. unfold all_previews.
      apply sublist_flat_map_pointwise. intros [n pg]. simpl.
      by apply page_previews_first_only.
Qed.

(** ** Deduplication page by page *)

Lemma dedup_from_app seen l1 l2 :
  dedup_from seen (l1 ++ l2)
  = dedup_from seen l1 ++ dedup_from (list_to_set (keys_of l1) ∪ seen) l2.
Proof.
  revert seen. induction l1 as [|h l1 IH]; intros seen; simpl.
  - by rewrite (left_id_L ∅ (∪)).
  - destruct (decide (heading_key h ∈ seen)) as [Hin|Hnin]; rewrite IH.
    + do 2 f_equal. apply set_eq. intros k.
      rewrite !elem_of_union, elem_of_singleton.
      split; [tauto|]. intros [[->|?]|?]; tauto.
    + simpl. do 3 f_equal. apply set_eq. intros k.
      rewrite !elem_of_union, elem_of_singleton. tauto.
Qed.

(** Keys that do not occur in a sequence play no part in its deduplication. *)
Lemma dedup_from_foreign extra seen l :
  (∀ h, h ∈ l → heading_key h ∉ extra) →
  dedup_from (extra ∪ seen) l = dedup_from seen l.
Proof.
  revert seen. induction l as [|h l IH]; intros seen Hl; simpl; [done|].
  assert (Hh : heading_key h ∉ extra) by (apply Hl, elem_of_cons; by left).
  assert (Hl' : ∀ h', h' ∈ l → heading_key h' ∉ extra)
    by (intros h' Hh'; apply Hl, elem_of_cons; by right).
  destruct (decide (heading_key h ∈ extra ∪ seen)) as [Hin|Hnin],
           (decide (heading_key h ∈ seen)) as [Hin'|Hnin'].
  - by apply IH.
  - apply elem_of_union in Hin as [?|?]; done.
  - exfalso. apply Hnin, elem_of_union. by right.
  - f_equal. rewrite <- (IH ({[heading_key h]} ∪ seen) Hl'). f_equal.
    apply set_eq. intros k.
    rewrite !elem_of_union, elem_of_singleton. tauto.
Qed.

Lemma dedup_enumerate opts k (pages : list Page) :
  dedup_from ∅ (flat_map (fun np => page_headings opts np.1 np.2) (enumerate k pages))
  = flat_map (fun np => dedup_headings (page_headings opts np.1 np.2))
      (enumerate k pages).
Proof.
  revert k. induction pages as [|pg pages IH]; intros k; simpl; [done|].
  rewrite dedup_from_app, dedup_headings_from. f_equal.
  rewrite dedup_from_foreign; [apply IH|].
  intros h Hh Hk. apply elem_of_list_to_set in Hk.
  unfold keys_of in Hk. apply list_elem_of_In, in_map_iff in Hk as (h' & Hkey & Hh').
  assert (Hp' : page h' = k).
  { pose proof (page_headings_page opts k pg) as Hall.
    rewrite Forall_forall in Hall. by apply Hall, list_elem_of_In. }
  assert (Hp : k + 1 ≤ page h).
  { pose proof (flat_map_enumerate_lower page (page_headings opts)
                  (page_headings_page opts) (k + 1) pages) as Hlow.
    rewrite Forall_forall in Hlow. by apply Hlow. }
  unfold heading_key in Hkey. injection Hkey as _ _ Hpage. lia.
Qed.

(** X8. Deduplication never reaches across pages: the headings the result files
    under a page are the headings of that page, deduplicated among
    themselves; a heading repeated on another page is kept there. *)
Theorem headings_are_deduplicated_per_page `{Runtime} (source : Source)
    (opts : Options) (doc : Document) (meta_title : option pystr)
    (pages : list Page) :
  open_source source = Returns doc →
  metadata_title doc = Returns meta_title →
  load_pages (doc_pages doc) = Returns pages →
  ∃ title headings md,
    extract_outline source opts = Returns (title, headings, md) ∧
    (∀ n pg, page_at pages n = Some pg →
       headings_of_page n headings = dedup_headings (page_headings opts n pg)) ∧
    (∀ n, page_at pages n = None → headings_of_page n headings = []).
Proof.
  intros Hopen Hmeta Hload.
  destruct (extract_outline_returns source opts doc _ _ Hopen Hmeta Hload)
    as (image_pages & Hret & _).
  do 3 eexists. split; [exact Hret|].
  assert (Hpage : ∀ n pg,
            Forall (fun h => page h = n) (dedup_headings (page_headings opts n pg))).
  { intros n pg. apply Forall_forall. intros h Hh.
    rewrite dedup_headings_from in Hh.
    eapply elem_of_sublist in Hh; [|apply dedup_from_sublist].
    pose proof (page_headings_page opts n pg) as Hall.
    rewrite Forall_forall in Hall. by apply Hall. }
  assert (Hfilter : ∀ n,
            headings_of_page n (dedup_headings (all_headings opts pages))
            = match page_at pages n with
              | Some pg => dedup_headings (page_headings opts n pg)
              | None => []
              end).
  { intros n. unfold headings_of_page, all_headings, page_at.
    rewrite dedup_headings_from, dedup_enumerate.
    rewrite (filter_page_enumerate page
               (fun n pg => dedup_headings (page_headings opts n pg)) Hpage).
    by destruct (1 <=? n). }
  split.
  - intros n pg Hpg. by rewrite Hfilter, Hpg.
  - intros n Hpg. by rewrite Hfilter, Hpg.
Qed.

Lemma headings_are_deduplicated_per_page_witness :
  ∃ title headings md,
    @extract_outline (sample_runtime sample_doc) sample_source default_options
    = Returns (title, headings, md) ∧
    ∀ n pg, page_at sample_pages n = Some pg →
      headings_of_page n headings
      = dedup_headings (page_headings default_options n pg).
Proof.
  destruct (@headings_are_deduplicated_per_page (sample_runtime sample_doc)
              sample_source default_options sample_doc None sample_pages
              eq_refl eq_refl eq_refl)
    as (title & headings & md & Hret & Hpage & _).
  by exists title, headings, md.
Defined.

(** ** The classifier on any thresholds *)

(** X9. A larger font size never classifies lower, whatever the thresholds. *)
Theorem classify_is_monotone (s s' m1 m2 m3 : pyfloat) :
  float_ge s' s = true →
  (level_rank (classify s m1 m2 m3) ≤ level_rank (classify s' m1 m2 m3))%nat.
Proof.
  intros Hle.
  assert (Hup : ∀ m, float_ge s m = true → float_ge s' m = true)
    by (intros m Hm; by apply float_ge_trans with s).
  unfold classify.
  destruct (float_ge s m1) eqn:G1; [by rewrite (Hup m1 G1)|].
  destruct (float_ge s m2) eqn:G2.
  { rewrite (Hup m2 G2). destruct (float_ge s' m1); simpl; lia. }
  destruct (float_ge s m3) eqn:G3.
  { rewrite (Hup m3 G3).
    destruct (float_ge s' m1), (float_ge s' m2); simpl; lia. }
  simpl. lia.
Qed.

Lemma classify_is_monotone_witness :
  (level_rank (classify (Num 12) (Num 18) (Num 14) (Num 10))
   ≤ level_rank (classify (Num 15) (Num 18) (Num 14) (Num 10)))%nat.
Proof. apply classify_is_monotone. reflexivity. Defined.

(** X10. The thresholds are not checked. When [min_h2] is at least [min_h1] no
    size is classified H2, and when [min_h3] is at least [min_h2] or
    [min_h1] no size is classified H3: the higher tier takes them all. A
    threshold that is nan is reached by no size. *)
Theorem unordered_thresholds_hide_tiers (s m1 m2 m3 : pyfloat) :
  (float_ge m2 m1 = true → classify s m1 m2 m3 ≠ Some H2) ∧
  (float_ge m3 m2 = true ∨ float_ge m3 m1 = true → classify s m1 m2 m3 ≠ Some H3) ∧
  (is_nan m1 = true → classify s m1 m2 m3 ≠ Some H1) ∧
  (is_nan m2 = true → classify s m1 m2 m3 ≠ Some H2) ∧
  (is_nan m3 = true → classify s m1 m2 m3 ≠ Some H3).
Proof.
  repeat split.
  - intros H21 Hc. apply classify_H2 in Hc as [G2 G1].
    by rewrite (float_ge_trans s m2 m1 G2 H21) in G1.
  - intros Hor Hc. apply classify_H3 in Hc as (G3 & G2 & G1).
    destruct Hor as [H32|H31].
    + by rewrite (float_ge_trans s m3 m2 G3 H32) in G2.
    + by rewrite (float_ge_trans s m3 m1 G3 H31) in G1.
  - intros Hn Hc. apply classify_H1 in Hc.
    apply float_ge_not_nan in Hc as [_ Hc]. congruence.
  - intros Hn Hc. apply classify_H2 in Hc as [Hc _].
    apply float_ge_not_nan in Hc as [_ Hc]. congruence.
  - intros Hn Hc. apply classify_H3 in Hc as (Hc & _).
    apply float_ge_not_nan in Hc as [_ Hc]. congruence.
Qed.

Lemma unordered_thresholds_hide_tiers_witness :
  classify (Num 15) (Num 10) (Num 14) (Num 18) ≠ Some H2 ∧
  classify (Num 19) (Num 10) (Num 14) (Num 18) ≠ Some H3.
Proof.
  destruct (unordered_thresholds_hide_tiers (Num 15) (Num 10) (Num 14) (Num 18))
    as (Hh2 & _).
  destruct (unordered_thresholds_hide_tiers (Num 19) (Num 10) (Num 14) (Num 18))
    as (_ & Hh3 & _).
  split; [by apply Hh2 | apply Hh3; by left].
Defined.

(** ** The batch driver: output names *)

Lemma rfind_dot_from_app a : ∀ i b,
  rfind_dot_from i (a ++ b)
  = match rfind_dot_from (i + List.length a) b with
    | Some j => Some j
    | None => rfind_dot_from i a
    end.
Proof.
  induction a as [|c a IH]; intros i b; simpl.
  - rewrite Nat.add_0_r. by destruct (rfind_dot_from i b).
  - rewrite IH. replace (i + S (List.length a))%nat with (S i + List.length a)%nat by lia.
    by destruct (rfind_dot_from (S i + List.length a) b).
Qed.

Lemma path_stem_pdf x : x ≠ [] → path_stem (x ++ py ".pdf") = x.
Proof.
  intros Hx. unfold path_stem. rewrite rfind_dot_from_app. simpl.
  rewrite length_app. simpl.
  assert (Hlen : (0 < List.length x)%nat) by (destruct x; [done | simpl; lia]).
  destruct (Nat.ltb_spec 0 (List.length x)); [|lia].
  destruct (Nat.ltb_spec (List.length x) (List.length x + 4 - 1)); [|lia].
  simpl. by rewrite take_app_length.
Qed.

Lemma is_pdf_name_spec name :
  is_pdf_name name = true ↔ ∃ x, name = x ++ py ".pdf".
Proof.
  unfold is_pdf_name. rewrite bool_decide_eq_true. split.
  - intros Hdrop. exists (take (List.length name - 4) name).
    rewrite <- Hdrop. by rewrite take_drop.
  - intros [x ->]. rewrite length_app. simpl.
    replace (List.length x + 4 - 4)%nat with (List.length x) by lia.
    by rewrite drop_app_length.
Qed.

Lemma output_name_unique name x :
  is_pdf_name name = true → output_name name = x ++ py ".json" →
  x ≠ [] → x ≠ py ".pdf" → name = x ++ py ".pdf".
Proof.
  intros Hpdf Hout Hx Hhidden. apply is_pdf_name_spec in Hpdf as [y ->].
  destruct y as [|c y].
  - exfalso. apply Hhidden. symmetry. by apply (app_inv_tail (py ".json")).
  - unfold output_name in Hout. rewrite path_stem_pdf in Hout by done.
    apply app_inv_tail in Hout. by rewrite Hout.
Qed.

(** A name without stem is its own stem: the hidden file [.pdf] and the
    file [.pdf.pdf] are written to the same output. *)
Lemma hidden_pdf_names_collide :
  is_pdf_name (py ".pdf") = true ∧ is_pdf_name (py ".pdf.pdf") = true ∧
  output_name (py ".pdf") = py ".pdf.json" ∧
  output_name (py ".pdf.pdf") = py ".pdf.json".
Proof. repeat split. Qed.

(** X11. The output of the input file [x.pdf], [x] not empty, is [x.json]; and
    no other file that the pattern [*.pdf] selects is written there, unless
    [x] is [.pdf] itself. Dots inside [x] stay. *)
Theorem output_name_of_pdf (x : pystr) :
  x ≠ [] →
  is_pdf_name (x ++ py ".pdf") = true ∧
  output_name (x ++ py ".pdf") = x ++ py ".json" ∧
  (x ≠ py ".pdf" →
   ∀ name, is_pdf_name name = true → output_name name = x ++ py ".json" →
           name = x ++ py ".pdf").
Proof.
  intros Hx. split; [apply is_pdf_name_spec; by exists x|].
  split; [unfold output_name; by rewrite path_stem_pdf|].
  intros Hhidden name Hpdf Hout. by apply output_name_unique.
Qed.

Lemma output_name_of_pdf_witness :
  output_name (py "report.v2.pdf") = py "report.v2.json".
Proof.
  destruct (output_name_of_pdf (py "report.v2")) as (_ & Hout & _); [done|].
  exact Hout.
Defined.

(** ** The batch driver: one file *)

Lemma process_pdf_other `{Runtime} `{Output} name overwrite w f :
  f ≠ output_name name →
  output_files (process_pdf name overwrite w) !! f = output_files w !! f.
Proof.
  intros Hf. unfold process_pdf.
  destruct (extract_outline _ _) as [e|r]; [done|]. cbv zeta.
  destruct (_ && _); [done|]. destruct (can_write _); [|done].
  simpl. by rewrite lookup_insert_ne.
Qed.

Lemma process_pdf_own `{Runtime} `{Output} name w :
  output_files (process_pdf name true w) !! output_name name
  = match extract_outline (SourcePath (input_path name)) default_options with
    | Returns r =>
        if can_write (output_name name) then Some (json_dump r)
        else output_files w !! output_name name
    | Raises _ => output_files w !! output_name name
    end.
Proof.
  unfold process_pdf.
  destruct (extract_outline _ _) as [e|r]; [done|]. cbv zeta.
  rewrite andb_false_r. destruct (can_write _); [|done].
  simpl. by rewrite lookup_insert_eq.
Qed.

(** X12. [process_pdf] changes nothing but the output file of its input, and
    that file only when the extraction returns and the file can be written;
    it leaves an output that exists as it is when [overwrite] is off, and
    every output as it is when the extraction fails. *)
Theorem process_pdf_writes_its_output_only `{Runtime} `{Output} (name : pystr)
    (overwrite : bool) (w : World) :
  input_entries (process_pdf name overwrite w) = input_entries w ∧
  (∀ f, f ≠ output_name name →
        output_files (process_pdf name overwrite w) !! f = output_files w !! f) ∧
  (∀ e, extract_outline (SourcePath (input_path name)) default_options = Raises e →
        process_pdf name overwrite w = w) ∧
  (overwrite = false → is_Some (output_files w !! output_name name) →
   process_pdf name overwrite w = w) ∧
  (can_write (output_name name) = false → process_pdf name overwrite w = w) ∧
  (∀ r, extract_outline (SourcePath (input_path name)) default_options = Returns r →
        can_write (output_name name) = true →
        overwrite = true ∨ output_files w !! output_name name = None →
        output_files (process_pdf name overwrite w) !! output_name name
        = Some (json_dump r)).
Proof.
  split; [|split; [|split; [|split; [|split]]]].
  - unfold process_pdf. destruct (extract_outline _ _) as [e|r]; [done|]. cbv zeta.
    destruct (_ && _); [done|]. by destruct (can_write _).
  - intros f Hf. by apply process_pdf_other.
  - intros e He. unfold process_pdf. by rewrite He.
  - intros -> Hsome. unfold process_pdf.
    destruct (extract_outline _ _) as [e|r]; [done|]. cbv zeta.
    by rewrite (bool_decide_eq_true_2 _ Hsome).
  - intros Hw. unfold process_pdf.
    destruct (extract_outline _ _) as [e|r]; [done|]. cbv zeta.
    rewrite Hw. by destruct (_ && _).
  - intros r Hr Hw Hor. unfold process_pdf. rewrite Hr. cbv zeta.
    assert (Hskip : bool_decide (is_Some (output_files w !! output_name name))
                    && negb overwrite = false).
    { destruct Hor as [-> | Hnone]; [apply andb_false_r|].
      rewrite Hnone. apply andb_false_iff. left.
      apply bool_decide_eq_false. by intros [? ?]. }
    rewrite Hskip, Hw. simpl. by rewrite lookup_insert_eq.
Qed.

Lemma process_pdf_writes_its_output_only_witness :
  output_files (@process_pdf batch_runtime batch_output (py "b.pdf") false batch_world)
  !! py "b.json" = Some (py "old").
Proof.
  destruct (@process_pdf_writes_its_output_only batch_runtime batch_output
              (py "b.pdf") false batch_world) as (_ & _ & _ & Hskip & _).
  rewrite Hskip; [reflexivity | reflexivity |]. by exists (py "old").
Defined.

(** ** The batch driver: the whole folder *)

Lemma elem_of_pdf_files entries name :
  name ∈ pdf_files entries ↔ name ∈ entries ∧ is_pdf_name name = true.
Proof.
  unfold pdf_files. rewrite merge_sort_Permutation.
  rewrite !list_elem_of_In. apply filter_In.
Qed.

Lemma batch_lookup `{Runtime} `{Output} (names : list pystr) : ∀ w f target,
  output_name target = f →
  (∀ name, name ∈ names → output_name name = f → name = target) →
  output_files (fold_left (fun w name => process_pdf name true w) names w) !! f
  = match extract_outline (SourcePath (input_path target)) default_options with
    | Returns r =>
        if can_write f && bool_decide (target ∈ names) then Some (json_dump r)
        else output_files w !! f
    | Raises _ => output_files w !! f
    end.
Proof.
  induction names as [|name names IH]; intros w f target Hf Huniq; simpl.
  - rewrite andb_false_r. by destruct (extract_outline _ _).
  - rewrite (IH _ f target Hf)
      by (intros n Hn; apply Huniq, elem_of_cons; by right).
    destruct (decide (name = target)) as [->|Hne].
    + rewrite <- Hf, process_pdf_own.
      rewrite (bool_decide_eq_true_2 (target ∈ target :: names))
        by (apply elem_of_cons; by left).
      destruct (extract_outline _ _) as [e|r]; [done|].
      destruct (can_write _); simpl; [by destruct (bool_decide _) | done].
    + assert (Hother : f ≠ output_name name).
      { intros Heq. apply Hne. apply Huniq; [apply elem_of_cons; by left | done]. }
      rewrite process_pdf_other by done.
      destruct (extract_outline _ _) as [e|r]; [done|].
      replace (bool_decide (target ∈ name :: names))
        with (bool_decide (target ∈ names)); [done|].
      apply bool_decide_ext. rewrite elem_of_cons. naive_solver.
Qed.

Lemma batch_frame `{Runtime} `{Output} (names : list pystr) : ∀ w f,
  (∀ name, name ∈ names → output_name name ≠ f) →
  output_files (fold_left (fun w name => process_pdf name true w) names w) !! f
  = output_files w !! f.
Proof.
  induction names as [|name names IH]; intros w f Hf; simpl; [done|].
  rewrite IH by (intros n Hn; apply Hf, elem_of_cons; by right).
  apply process_pdf_other. intros Heq. apply (Hf name); [apply elem_of_cons; by left|].
  done.
Qed.

Lemma mkdir_output_returns `{Output} (d : Disk) :
  is_Some (disk_output d) ∨ can_make_output_dir = true →
  mkdir_output d
  = Returns {| input_entries := disk_input d;
               output_files := default ∅ (disk_output d) |}.
Proof.
  unfold mkdir_output. intros [[files ->] | Hdir]; [done|].
  destruct (disk_output d); [done|]. by rewrite Hdir.
Qed.

Lemma main_returns `{Runtime} `{Output} (d : Disk) :
  is_Some (disk_output d) ∨ can_make_output_dir = true →
  main d
  = Returns
      {| disk_input := disk_input d;
         disk_output :=
           Some (match disk_input d with
                 | Some entries =>
                     output_files
                       (fold_left (fun w name => process_pdf name true w)
                          (pdf_files entries)
                          {| input_entries := disk_input d;
                             output_files := default ∅ (disk_output d) |})
                 | None => default ∅ (disk_output d)
                 end) |}.
Proof.
  intros Hdir. unfold main. rewrite (mkdir_output_returns d Hdir).
  unfold mbind, outcome_bind. cbn [input_entries].
  destruct (disk_input d) as [entries|] eqn:Hin; [|done].
  assert (Hkeep : ∀ names w,
    input_entries (fold_left (fun w name => process_pdf name true w) names w)
    = input_entries w).
  { induction names as [|name names IH]; intros w; simpl; [done|].
    rewrite IH. unfold process_pdf.
    destruct (extract_outline _ _) as [e|r]; [done|]. cbv zeta.
    destruct (_ && _); [done|]. by destruct (can_write _). }
  destruct (pdf_files entries) as [|name names] eqn:Hfiles; [done|].
  unfold disk_of. by rewrite Hkeep.
Qed.

(** X13. [main] on a folder. It returns when the output folder exists or
    can be made, and the output folder exists afterwards, the input folder
    being as it was. For a name [x] that is neither empty nor [.pdf]: when
    [x.pdf] is in the input folder, its extraction returns and [x.json] can
    be written, the output [x.json] holds the dump of the result, whatever
    happens to the other files; when [x.pdf] is absent or its extraction
    fails or [x.json] cannot be written, [x.json] is left as it was. A file
    of the output folder that is the output of no selected input is left as
    it was. Without an input folder the output folder is made all the same,
    empty when it was missing, and its files are left as they were. *)
Theorem main_writes_one_output_per_pdf `{Runtime} `{Output} (d : Disk) (x : pystr) :
  is_Some (disk_output d) ∨ can_make_output_dir = true →
  x ≠ [] → x ≠ py ".pdf" →
  ∃ d' files',
    main d = Returns d' ∧
    disk_input d' = disk_input d ∧
    disk_output d' = Some files' ∧
    let files := default ∅ (disk_output d) in
    (∀ entries r,
       disk_input d = Some entries → x ++ py ".pdf" ∈ entries →
       extract_outline (SourcePath (input_path (x ++ py ".pdf"))) default_options
       = Returns r →
       can_write (x ++ py ".json") = true →
       files' !! (x ++ py ".json") = Some (json_dump r)) ∧
    (∀ entries,
       disk_input d = Some entries →
       x ++ py ".pdf" ∉ entries ∨
       (∃ e, extract_outline (SourcePath (input_path (x ++ py ".pdf")))
               default_options = Raises e) ∨
       can_write (x ++ py ".json") = false →
       files' !! (x ++ py ".json") = files !! (x ++ py ".json")) ∧
    (∀ entries f,
       disk_input d = Some entries →
       (∀ name, name ∈ entries → is_pdf_name name = true → output_name name ≠ f) →
       files' !! f = files !! f) ∧
    (disk_input d = None → files' = files).
Proof.
  intros Hdir Hx Hhidden. do 2 eexists.
  split; [by apply main_returns|]. split; [done|]. split; [done|]. cbv zeta.
  set (w := {| input_entries := disk_input d;
               output_files := default ∅ (disk_output d) |}).
  assert (Hlookup : ∀ entries,
    output_files (fold_left (fun w name => process_pdf name true w)
                    (pdf_files entries) w) !! (x ++ py ".json")
    = match extract_outline (SourcePath (input_path (x ++ py ".pdf")))
              default_options with
      | Returns r =>
          if can_write (x ++ py ".json")
             && bool_decide (x ++ py ".pdf" ∈ pdf_files entries)
          then Some (json_dump r)
          else output_files w !! (x ++ py ".json")
      | Raises _ => output_files w !! (x ++ py ".json")
      end).
  { intros entries. apply batch_lookup.
    - unfold output_name. by rewrite path_stem_pdf.
    - intros name Hname Hout. apply elem_of_pdf_files in Hname as [_ Hpdf].
      by apply output_name_unique. }
  split; [|split; [|split]].
  - intros entries r He Hin Hr Hw. rewrite He, (Hlookup entries), Hr, Hw.
    rewrite bool_decide_eq_true_2; [done|].
    apply elem_of_pdf_files. split; [done|]. apply is_pdf_name_spec. by exists x.
  - intros entries He Hor. rewrite He, (Hlookup entries).
    destruct (extract_outline _ _) as [e|r]; [done|].
    destruct Hor as [Hnin|[[e He']|Hw]]; [|done|by rewrite Hw].
    rewrite bool_decide_eq_false_2; [by rewrite andb_false_r|].
    intros Hin. by apply elem_of_pdf_files in Hin as [? _].
  - intros entries f He Hf. rewrite He. apply batch_frame.
    intros name Hname. apply elem_of_pdf_files in Hname as [Hin Hpdf]. by apply Hf.
  - by intros ->.
Qed.

Lemma main_writes_one_output_per_pdf_witness :
  (∃ d' files',
     @main batch_runtime batch_output batch_disk = Returns d' ∧
     disk_output d' = Some files' ∧
     files' !! py "c.json" = Some (py "Untitled") ∧
     files' !! py "b.json" = Some (py "old")) ∧
  (∃ d' files',
     @main batch_runtime batch_output fresh_disk = Returns d' ∧
     disk_output d' = Some files' ∧
     files' !! py "c.json" = Some (py "Untitled") ∧
     files' !! py "b.json" = None) ∧
  @main batch_runtime batch_output empty_disk
  = Returns {| disk_input := None; disk_output := Some ∅ |}.
Proof.
  assert (Hin : py "c" ++ py ".pdf" ∈ [py "c.pdf"; py "notes.txt"; py "b.pdf"; py "a.pdf"])
    by (apply elem_of_cons; by left).
  assert (Hfails : ∃ e, @extract_outline batch_runtime
                          (SourcePath (input_path (py "b" ++ py ".pdf")))
                          default_options = Raises e)
    by (eexists; reflexivity).
  split; [|split].
  - destruct (@main_writes_one_output_per_pdf batch_runtime batch_output batch_disk
                (py "c") (or_intror eq_refl))
      as (d' & files' & Hmain & _ & Hout & Hgood & _); [done | done |].
    destruct (@main_writes_one_output_per_pdf batch_runtime batch_output batch_disk
                (py "b") (or_intror eq_refl))
      as (d'' & files'' & Hmain' & _ & Hout' & _ & Hbad & _); [done | done |].
    assert (d'' = d') by congruence. subst d''.
    assert (files'' = files') by congruence. subst files''.
    pose proof (Hgood _ _ eq_refl Hin eq_refl eq_refl) as Hc.
    pose proof (Hbad _ eq_refl (or_intror (or_introl Hfails))) as Hb.
    exists d', files'. split; [exact Hmain|]. split; [exact Hout|].
    split; [exact Hc | exact Hb].
  - destruct (@main_writes_one_output_per_pdf batch_runtime batch_output fresh_disk
                (py "c") (or_intror eq_refl))
      as (d' & files' & Hmain & _ & Hout & Hgood & _); [done | done |].
    destruct (@main_writes_one_output_per_pdf batch_runtime batch_output fresh_disk
                (py "b") (or_intror eq_refl))
      as (d'' & files'' & Hmain' & _ & Hout' & _ & Hbad & _); [done | done |].
    assert (d'' = d') by congruence. subst d''.
    assert (files'' = files') by congruence. subst files''.
    pose proof (Hgood _ _ eq_refl Hin eq_refl eq_refl) as Hc.
    pose proof (Hbad _ eq_refl (or_intror (or_introl Hfails))) as Hb.
    exists d', files'. split; [exact Hmain|]. split; [exact Hout|].
    split; [exact Hc | exact Hb].
  - destruct (@main_writes_one_output_per_pdf batch_runtime batch_output empty_disk
                (py "c") (or_intror eq_refl))
      as (d' & files' & Hmain & Hinp & Hout & _ & _ & _ & Hnone); [done | done |].
    rewrite Hmain. f_equal. destruct d' as [inp out]. simpl in *.
    rewrite Hinp, Hout. by rewrite (Hnone eq_refl).
Defined.

(** When the output folder is missing and cannot be made, [main] raises
    before it looks at the input folder. *)
Lemma main_raises_without_output_dir `{Runtime} `{Output} (d : Disk) :
  disk_output d = None → can_make_output_dir = false →
  main d = Raises (LibraryError (py "cannot create the output folder")).
Proof. intros Hnone Hno. unfold main, mkdir_output. by rewrite Hnone, Hno. Qed.

(** ** The returned title *)

(** X14. The title that [extract_outline] returns for a document that is
    read has no whitespace at its ends, and a document that carries it as
    its metadata title gets it back unchanged. *)
Theorem returned_title_is_trimmed `{Runtime} (source : Source) (opts : Options)
    (doc : Document) (meta_title : option pystr) (pages : list Page) :
  open_source source = Returns doc →
  metadata_title doc = Returns meta_title →
  load_pages (doc_pages doc) = Returns pages →
  ∃ title headings md,
    extract_outline source opts = Returns (title, headings, md) ∧
    strip title = title ∧
    resolve_title (Some title) = title.
Proof.
  intros Hopen Hmeta Hload.
  destruct (extract_outline_returns source opts doc _ _ Hopen Hmeta Hload)
    as (image_pages & Hret & _).
  do 3 eexists. split; [exact Hret|].
  assert (Hstrip : strip (resolve_title meta_title) = resolve_title meta_title).
  { unfold resolve_title.
    destruct (strip (match meta_title with Some t => t | None => [] end))
      as [|c t] eqn:Ht; [reflexivity|].
    rewrite <- Ht. apply strip_idemp. }
  split; [exact Hstrip|].
  unfold resolve_title at 1. rewrite Hstrip.
  pose proof (proj2 (proj2 (proj2 (resolve_title_spec meta_title)))) as Hne.
  by destruct (resolve_title meta_title).
Qed.

Lemma returned_title_is_trimmed_witness :
  ∃ title headings md,
    @extract_outline (sample_runtime padded_title_doc) sample_source default_options
    = Returns (title, headings, md) ∧
    strip title = title ∧
    resolve_title (Some title) = title.
Proof.
  apply (@returned_title_is_trimmed (sample_runtime padded_title_doc) sample_source
           default_options padded_title_doc (Some (py " Report ")) [text_page []]);
    reflexivity.
Defined.
